(** * Role-based access control over an e-commerce and vector-search demo

    Shallow embedding of [rbac_pinecone_demo.py]: the data classes, the
    permission registry [RBACSystem], the facades [ECommerceSystem],
    [InventoryManagement] and [VectorManagement], and the statements of the
    script that define roles and promote users.

    Conventions.
    - A Python [set] of permission strings is a [gset string]; the dict
      [role_permissions] is a [gmap string (gset string)] (it is only ever
      looked up by key).
    - The dicts [products], [orders], [users] of the facades are iterated
      with [.values()], so they are insertion-ordered association lists
      ([dict_get], [dict_set], [dict_values]).
    - [Product], [Order] and [User] objects are held by value.  The script
      shares them between its lists and the facades; within one call nothing
      but the object at hand is written, and the statements that mutate a
      user between calls are modelled on the list [users] ([world]).
    - A Python [float] is a binary64 [PrimFloat.float]; it is only copied.
    - A call either returns a value or raises: [result].
    - The embedding encoder, the vector index, [uuid4] and the console are
      outside the program: a call to one of them is an event of an
      interaction tree. *)

From Stdlib Require Import ZArith Ascii Floats.PrimFloat.
From stdpp Require Import gmap strings list fin_maps pretty.
From ITree Require Import ITree Eq.Shallow.

Open Scope Z_scope.
Open Scope string_scope.

(** ** Python values, exceptions and results *)

(** The key of a failed subscript [d[k]]. *)
Inductive key : Type :=
| KInt (n : Z)
| KStr (s : string).

(** The exceptions the program can meet: a failed subscript, or a failure
    reported by a collaborator (kept as its [str()]). *)
Inductive exn : Type :=
| KeyError (k : key)
| Exception (msg : string).

(** [str(e)]: a [KeyError] prints the [repr] of its key. *)
Definition exn_str (e : exn) : string :=
  match e with
  | KeyError (KInt n) => pretty n
  | KeyError (KStr s) => "'" ++ s ++ "'"
  | Exception msg => msg
  end.

Inductive result (A : Type) : Type :=
| Return (a : A)
| Raise (e : exn).
Arguments Return {A} a.
Arguments Raise {A} e.

(** Sequencing: an exception raised by [m] propagates. *)
Definition result_bind {A B : Type} (m : result A) (f : A -> result B) : result B :=
  match m with
  | Return a => f a
  | Raise e => Raise e
  end.

Notation "'let*' x := m 'in' k" := (result_bind m (fun x => k))
  (at level 10, x name, m at level 100, k at level 200).

(** [[f(x) for x in l]] where [f] may raise: the first failure wins. *)
Fixpoint result_map {A B : Type} (f : A -> result B) (l : list A) : result (list B) :=
  match l with
  | [] => Return []
  | x :: l' => let* y := f x in let* ys := result_map f l' in Return (y :: ys)
  end.

(** A value stored in vector metadata. *)
Inductive pyval : Type :=
| PStr (s : string)
| PInt (n : Z)
| PFloat (x : float).

(** ** Insertion-ordered dicts *)

Section pydict.
Context {K V : Type} `{EqDecision K}.

(** [d.get(k)] *)
Fixpoint dict_get (d : list (K * V)) (k : K) : option V :=
  match d with
  | [] => None
  | (k', v) :: d' => if decide (k' = k) then Some v else dict_get d' k
  end.

(** [d[k] = v]: an existing key keeps its position. *)
Fixpoint dict_set (d : list (K * V)) (k : K) (v : V) : list (K * V) :=
  match d with
  | [] => [(k, v)]
  | (k', v') :: d' =>
      if decide (k' = k) then (k', v) :: d' else (k', v') :: dict_set d' k v
  end.

(** [d.values()] *)
Definition dict_values (d : list (K * V)) : list V := d.*2.

(** [k in d] *)
Definition dict_mem (d : list (K * V)) (k : K) : bool :=
  match dict_get d k with
  | Some _ => true
  | None => false
  end.

(** [{key(x): x for x in l}] *)
Definition dict_of_list (key_of : V -> K) (l : list V) : list (K * V) :=
  foldl (fun d x => dict_set d (key_of x) x) [] l.
End pydict.

(** [d[k]] on an int-keyed dict. *)
Definition getitem_int {V : Type} (d : list (Z * V)) (k : Z) : result V :=
  match dict_get d k with
  | Some v => Return v
  | None => Raise (KeyError (KInt k))
  end.

(** [d[k]] on a string-keyed map. *)
Definition getitem_str {V : Type} (d : gmap string V) (k : string) : result V :=
  match d !! k with
  | Some v => Return v
  | None => Raise (KeyError (KStr k))
  end.

(** ** Data classes *)

Module User.
Record User : Type := mk {
  id : Z;
  username : string;
  role : string;
  api_key : option string
}.
End User.
Abbreviation User := User.User.

Module Product.
Record Product : Type := mk {
  id : Z;
  name : string;
  price : float;
  stock : Z;
  description : string;
  vector_id : option string
}.
End Product.
Abbreviation Product := Product.Product.

Module Order.
Record Order : Type := mk {
  id : Z;
  user_id : Z;
  products : list Z;
  total : float;
  status : string;
  created_at : Z   (* a [datetime], as a timestamp; never read *)
}.
End Order.
Abbreviation Order := Order.Order.

(** [user.role = r] *)
Definition set_role (r : string) (u : User) : User :=
  User.mk (User.id u) (User.username u) r (User.api_key u).

(** [product.stock = n] *)
Definition set_stock (n : Z) (p : Product) : Product :=
  Product.mk (Product.id p) (Product.name p) (Product.price p) n
             (Product.description p) (Product.vector_id p).

(** ** RBACSystem *)

Record RBACSystem : Type := { role_permissions : gmap string (gset string) }.

(** [RBACSystem.__init__] *)
Definition RBACSystem_init : RBACSystem :=
  {| role_permissions :=
       <["customer" :=
           {[ "view_products"; "view_own_orders"; "place_order";
              "vector_search_basic" ]}]>
      (<["sales_rep" :=
           {[ "view_products"; "view_all_orders"; "update_order_status";
              "view_customer_info"; "vector_search_basic";
              "vector_search_advanced" ]}]>
      (<["data_scientist" :=
           {[ "view_products"; "vector_search_basic"; "vector_search_advanced";
              "vector_create"; "vector_delete"; "vector_update" ]}]>
      (<["admin" :=
           {[ "view_products"; "update_product_stock"; "view_all_orders";
              "update_order_status"; "view_customer_info"; "manage_users";
              "place_order"; "vector_search_basic"; "vector_search_advanced";
              "vector_create"; "vector_delete"; "vector_update";
              "vector_manage_index" ]}]> ∅))) |}.

(** [RBACSystem.has_permission] *)
Definition has_permission (self : RBACSystem) (user : User) (permission : string)
  : result bool :=
  if bool_decide (User.role user ∉ dom (role_permissions self)) then Return false
  else
    let* s := getitem_str (role_permissions self) (User.role user) in
    Return (bool_decide (permission ∈ s)).
Arguments has_permission : simpl never.

(** [RBACSystem.get_user_permissions] *)
Definition get_user_permissions (self : RBACSystem) (user : User) : gset string :=
  default ∅ (role_permissions self !! User.role user).

(** The role [r] holds the permission [p]: [r] is a key of the mapping and
    [p] is a member of its set.  This is the specification [has_permission]
    is compared with, and [holdsb] is its decision procedure. *)
Definition holds (self : RBACSystem) (r : string) (p : string) : Prop :=
  exists s, role_permissions self !! r = Some s /\ p ∈ s.

Definition holdsb (self : RBACSystem) (r : string) (p : string) : bool :=
  match role_permissions self !! r with
  | Some s => bool_decide (p ∈ s)
  | None => false
  end.

(** [rbac.role_permissions[role] = permissionSet], the statement that
    defines a role in the script (senior_sales_rep, senior_data_scientist). *)
Definition define (self : RBACSystem) (role : string) (permissionSet : gset string)
  : RBACSystem :=
  {| role_permissions := <[role := permissionSet]> (role_permissions self) |}.

(** ** External collaborators

    The sentence-transformer [model], the Pinecone index, [uuid4] and the
    console.  A collaborator call answers with a value or with the exception
    it raised. *)

Module Match.
Record Match : Type := mk {
  id : string;
  score : float;
  metadata : gmap string pyval
}.
End Match.
Abbreviation Match := Match.Match.

Record QueryResponse : Type := { matches : list Match }.

(** One entry of the list [vector_search] returns. *)
Module SearchResult.
Record SearchResult : Type := mk {
  product_name : pyval;
  price : pyval;
  description : pyval;
  similarity_score : float;
  vector_id : string
}.
End SearchResult.
Abbreviation SearchResult := SearchResult.SearchResult.

(** The pieces of an f-string handed to [print], before formatting. *)
Inductive frag : Type :=
| Lit (s : string)
| FInt (n : Z)
| FVal (v : pyval)
| FFloat4 (x : float)            (* [{x:.4f}] *)
| FResponse (r : QueryResponse).

Variant extE : Type -> Type :=
| Print (line : list frag) : extE unit
| Encode (text : string) : extE (result (list float))
    (* [model.encode(text).tolist()] *)
| Query (index : string) (vector : list float) (top_k : Z) (include_metadata : bool)
    : extE (result QueryResponse)
    (* [index.query(vector=..., top_k=..., include_metadata=...)] *)
| Upsert (index : string) (vectors : list (string * list float * gmap string pyval))
    : extE (result unit)
    (* [index.upsert([...])] *)
| Uuid4 : extE string.
    (* [str(uuid4())] *)

(** A collaborator call that was executed, with its answer. *)
Inductive call : Type :=
| Call {X : Type} (e : extE X) (x : X).

(** The calls that reach the embedding encoder or the vector store. *)
Definition is_collaborator_call (c : call) : bool :=
  match c with
  | Call e _ =>
      match e with
      | Encode _ | Query _ _ _ _ | Upsert _ _ => true
      | Print _ | Uuid4 => false
      end
  end.

(** [exec t tr r]: the program [t] can run to completion, executing exactly
    the calls [tr] in order and returning [r]. *)
Inductive exec {R : Type} : itree extE R -> list call -> R -> Prop :=
| exec_ret t r :
    observe t = RetF r -> exec t [] r
| exec_tau t u tr r :
    observe t = TauF u -> exec u tr r -> exec t tr r
| exec_vis t X (e : extE X) k x tr r :
    observe t = VisF e k -> exec (k x) tr r -> exec t (Call e x :: tr) r.

Definition nl : string := String "010"%char "".
Definition dquote : string := String "034"%char "".

(** The handle of the Pinecone index, [pc.Index("products")]. *)
Definition products_index : string := "products".

(** ** ECommerceSystem *)

Module ProductView.
Record ProductView : Type := mk {
  id : Z;
  name : string;
  price : float;
  stock : Z
}.
End ProductView.
Abbreviation ProductView := ProductView.ProductView.

Module OrderView.
Record OrderView : Type := mk {
  id : Z;
  total : float;
  status : string;
  products : list string
}.
End OrderView.
Abbreviation OrderView := OrderView.OrderView.

Module ECommerceSystem.
Record ECommerceSystem : Type := mk {
  rbac : RBACSystem;
  users : list (Z * User);
  products : list (Z * Product);
  orders : list (Z * Order);
  vector_index : string
}.

(** [ECommerceSystem.__init__] *)
Definition init (rbac : RBACSystem) (users : list User) (products : list Product)
           (orders : list Order) : ECommerceSystem :=
  mk rbac (dict_of_list User.id users) (dict_of_list Product.id products)
     (dict_of_list Order.id orders) products_index.

(** [ECommerceSystem.view_products] *)
Definition view_products (self : ECommerceSystem) (user : User)
  : result (list (string + ProductView)) :=
  let* b := has_permission (rbac self) user "view_products" in
  if negb b then Return [inl "Access Denied: No permission to view products"]
  else
    Return ((fun p => inr (ProductView.mk (Product.id p) (Product.name p)
                             (Product.price p) (Product.stock p)))
              <$> dict_values (products self)).

(** The dict built for one order; [self.products[pid]] may raise. *)
Definition order_view (self : ECommerceSystem) (order : Order) : result OrderView :=
  let* names :=
    result_map
      (fun pid => let* p := getitem_int (products self) pid in Return (Product.name p))
      (Order.products order) in
  Return (OrderView.mk (Order.id order) (Order.total order) (Order.status order) names).

(** [ECommerceSystem.view_orders]; [order_id = None] is the default. *)
Definition view_orders (self : ECommerceSystem) (user : User) (order_id : option Z)
  : result (list (string + OrderView)) :=
  let* a := has_permission (rbac self) user "view_all_orders" in
  let* ok := (if a then Return true
              else has_permission (rbac self) user "view_own_orders") in
  if negb ok then Return [inl "Access Denied: No permission to view orders"]
  else
    match order_id with
    | Some order_id =>
        match dict_get (orders self) order_id with
        | None => Return [inl "Order not found"]
        | Some order =>
            let* a := has_permission (rbac self) user "view_all_orders" in
            if negb a && bool_decide (Order.user_id order ≠ User.id user)
            then Return [inl "Access Denied: Can only view your own orders"]
            else let* v := order_view self order in Return [inr v]
        end
    | None =>
        let* a := has_permission (rbac self) user "view_all_orders" in
        let orders_to_show :=
          if a then dict_values (orders self)
          else filter (fun o => Order.user_id o = User.id user)
                      (dict_values (orders self)) in
        let* vs := result_map (order_view self) orders_to_show in
        Return (inr <$> vs)
    end.

(** One entry of [formatted_results]; a missing metadata key raises. *)
Definition format_match (m : Match) : result SearchResult :=
  let* n := getitem_str (Match.metadata m) "name" in
  let* p := getitem_str (Match.metadata m) "price" in
  let* d := getitem_str (Match.metadata m) "description" in
  Return (SearchResult.mk n p d (Match.score m) (Match.id m)).

(** The loop that prints the results, [idx] counting from 1. *)
Fixpoint print_results (idx : Z) (l : list SearchResult) : itree extE unit :=
  match l with
  | [] => Ret tt
  | r :: l' =>
      ITree.bind (ITree.trigger
        (Print [Lit nl; FInt idx; Lit ". "; FVal (SearchResult.product_name r)]))
      (fun _ => ITree.bind (ITree.trigger
        (Print [Lit "   Similarity Score: "; FFloat4 (SearchResult.similarity_score r)]))
      (fun _ => ITree.bind (ITree.trigger
        (Print [Lit "   Price: $"; FVal (SearchResult.price r)]))
      (fun _ => print_results (idx + 1) l')))
  end.

(** The first line printed inside the [try] block of [vector_search]. *)
Definition search_banner (query : string) : list frag :=
  [Lit nl; Lit "Performing vector search for query: '"; Lit query; Lit "'"].

(** The body of the [try] block of [vector_search]. *)
Definition vector_search_try (self : ECommerceSystem) (user : User) (query : string)
           (top_k : Z) : itree extE (result (list (string + SearchResult))) :=
  ITree.bind (ITree.trigger (Print (search_banner query))) (fun _ =>
  ITree.bind (ITree.trigger
    (Print [Lit "User: "; Lit (User.username user); Lit " ("; Lit (User.role user);
            Lit ")"])) (fun _ =>
  ITree.bind (ITree.trigger (Encode query)) (fun r =>
  match r with
  | Raise e => Ret (Raise e)
  | Return query_embedding =>
      ITree.bind (ITree.trigger (Print [Lit "Searching for: "; Lit query])) (fun _ =>
      ITree.bind (ITree.trigger
        (Print [Lit "Query embedding dimension: ";
                FInt (Z.of_nat (length query_embedding))])) (fun _ =>
      ITree.bind (ITree.trigger
        (Query (vector_index self) query_embedding top_k true)) (fun r =>
      match r with
      | Raise e => Ret (Raise e)
      | Return results =>
          ITree.bind (ITree.trigger
            (Print [Lit nl; Lit "Search response: "; FResponse results])) (fun _ =>
          match matches results with
          | [] =>
              ITree.bind (ITree.trigger (Print [Lit "No matches found!"])) (fun _ =>
              Ret (Return []))
          | _ :: _ =>
              match result_map format_match (matches results) with
              | Raise e => Ret (Raise e)
              | Return formatted_results =>
                  ITree.bind (ITree.trigger
                    (Print [Lit nl; Lit "Found ";
                            FInt (Z.of_nat (length formatted_results));
                            Lit " matching products:"])) (fun _ =>
                  ITree.bind (print_results 1 formatted_results) (fun _ =>
                  Ret (Return (inr <$> formatted_results))))
              end
          end)
      end)))
  end))).

(** What [vector_search] returns to a caller without a search permission. *)
Definition search_denied : result (list (string + SearchResult)) :=
  Return [inl "Access Denied: No permission to perform vector search"].

(** The [except Exception as e] clause of [vector_search], applied to the
    outcome of the [try] block. *)
Definition vector_search_except (r : result (list (string + SearchResult)))
  : itree extE (result (list (string + SearchResult))) :=
  match r with
  | Return v => Ret (Return v)
  | Raise e =>
      let error_msg := "Error performing vector search: " ++ exn_str e in
      ITree.bind (ITree.trigger (Print [Lit nl; Lit "✗ "; Lit error_msg])) (fun _ =>
      Ret (Return [inl error_msg]))
  end.

(** [ECommerceSystem.vector_search] *)
Definition vector_search (self : ECommerceSystem) (user : User) (query : string)
           (top_k : Z) : itree extE (result (list (string + SearchResult))) :=
  match (let* b := has_permission (rbac self) user "vector_search_basic" in
         if b then Return true
         else has_permission (rbac self) user "vector_search_advanced") with
  | Raise e => Ret (Raise e)
  | Return ok =>
      if negb ok then Ret search_denied
      else ITree.bind (vector_search_try self user query top_k) vector_search_except
  end.
End ECommerceSystem.
Abbreviation ECommerceSystem := ECommerceSystem.ECommerceSystem.

(** The three one-line results of [view_orders]. *)
Definition orders_gate_denied : result (list (string + OrderView)) :=
  Return [inl "Access Denied: No permission to view orders"].
Definition order_not_found : result (list (string + OrderView)) :=
  Return [inl "Order not found"].
Definition order_forbidden : result (list (string + OrderView)) :=
  Return [inl "Access Denied: Can only view your own orders"].

(** The names [order_view] collects: one per product id, in order. *)
Definition names_of (products : list (Z * Product)) (pids : list Z) (names : list string)
  : Prop :=
  Forall2 (fun pid n => exists p, dict_get products pid = Some p /\ Product.name p = n)
          pids names.

(** Every product id of the order is a key of the product store. *)
Definition products_resolved (self : ECommerceSystem) (order : Order) : Prop :=
  Forall (fun pid => dict_mem (ECommerceSystem.products self) pid = true)
         (Order.products order).

(** ** InventoryManagement *)

Module InventoryManagement.
Record InventoryManagement : Type := mk {
  rbac : RBACSystem;
  products : list (Z * Product)
}.

(** [InventoryManagement.__init__] *)
Definition init (rbac : RBACSystem) (products : list Product) : InventoryManagement :=
  mk rbac (dict_of_list Product.id products).

(** [InventoryManagement.update_stock]: the value returned or the
    exception raised, and the object after the call. *)
Definition update_stock (self : InventoryManagement) (user : User)
           (product_id new_stock : Z) : result string * InventoryManagement :=
  match has_permission (rbac self) user "update_product_stock" with
  | Raise e => (Raise e, self)
  | Return b =>
      if negb b then (Return "Access Denied: No permission to update stock", self)
      else if negb (dict_mem (products self) product_id)
      then (Return "Product not found", self)
      else
        match getitem_int (products self) product_id with
        | Raise e => (Raise e, self)
        | Return p =>
            let self' :=
              mk (rbac self)
                 (dict_set (products self) product_id (set_stock new_stock p)) in
            match getitem_int (products self') product_id with
            | Raise e => (Raise e, self')
            | Return p' =>
                (Return ("Stock updated successfully for " ++ Product.name p'), self')
            end
        end
  end.
End InventoryManagement.
Abbreviation InventoryManagement := InventoryManagement.InventoryManagement.

(** The two one-line failures of [update_stock]. *)
Definition stock_denied : result string :=
  Return "Access Denied: No permission to update stock".
Definition product_not_found : result string := Return "Product not found".

(** ** VectorManagement *)

Module VectorManagement.
Record VectorManagement : Type := mk {
  rbac : RBACSystem;
  vector_index : string
}.

(** What [create_vector] returns to a caller without [vector_create]. *)
Definition create_denied : result string :=
  Return "Access Denied: No permission to create vectors".

(** [VectorManagement.create_vector] *)
Definition create_vector (self : VectorManagement) (user : User) (data : string)
           (metadata : gmap string pyval) : itree extE (result string) :=
  match has_permission (rbac self) user "vector_create" with
  | Raise e => Ret (Raise e)
  | Return b =>
      if negb b then Ret create_denied
      else
        ITree.bind (ITree.trigger Uuid4) (fun vector_id =>
        ITree.bind (ITree.trigger (Encode data)) (fun r =>
        match r with
        | Raise e => Ret (Return ("Error creating vector: " ++ exn_str e))
        | Return embedding =>
            ITree.bind (ITree.trigger
              (Upsert (vector_index self) [(vector_id, embedding, metadata)])) (fun r =>
            match r with
            | Raise e => Ret (Return ("Error creating vector: " ++ exn_str e))
            | Return _ =>
                Ret (Return ("Vector created successfully with ID: " ++ vector_id))
            end)
        end))
  end.
End VectorManagement.
Abbreviation VectorManagement := VectorManagement.VectorManagement.

(** ** The script: role definition, promotion, authorization checks

    The statements of the script that act on the registry and on the user
    objects.  The user objects live in the list [users]; a principal is
    named by its position in that list. *)

Record world : Type := {
  rbac : RBACSystem;
  users : list User
}.

Inductive stmt : Type :=
| Define (role : string) (permissionSet : gset string)
    (* [rbac.role_permissions[role] = permissionSet] *)
| SetRole (p : nat) (role : string)
    (* [users[p].role = role] *)
| Check (p : nat) (permission : string).
    (* [rbac.has_permission(users[p], permission)] *)

(** One statement: the state after it and the decision it made, if any. *)
Definition step (w : world) (s : stmt) : world * option (result bool) :=
  match s with
  | Define role permissionSet =>
      ({| rbac := define (rbac w) role permissionSet; users := users w |}, None)
  | SetRole p role =>
      ({| rbac := rbac w; users := alter (set_role role) p (users w) |}, None)
  | Check p permission =>
      (w, (fun u => has_permission (rbac w) u permission) <$> users w !! p)
  end.

(** A sequence of statements: the final state and the decisions made, in
    order. *)
Fixpoint run (w : world) (ss : list stmt) : world * list (result bool) :=
  match ss with
  | [] => (w, [])
  | s :: ss' =>
      let '(w', d) := step w s in
      let '(w'', ds) := run w' ss' in
      (w'', (option_list d ++ ds)%list)
  end.

(** ** grant *)

(** Modelled from the spec: [grant(role, permission)], which the source does
    not define (it only builds [role_permissions] from set literals and
    assigns whole sets).  The spec: adds one permission to an existing (or
    newly created) role's set; no-op if already present. *)
Definition grant (self : RBACSystem) (role : string) (permission : string)
  : RBACSystem :=
  {| role_permissions :=
       <[role := default ∅ (role_permissions self !! role) ∪ {[permission]}]>
         (role_permissions self) |}.

(** ** The objects the script creates *)

Module Demo.
Definition alice : User := User.mk 1 "alice" "customer" None.
Definition bob : User := User.mk 2 "bob" "sales_rep" None.
Definition carol : User := User.mk 3 "carol" "data_scientist" None.
Definition david : User := User.mk 4 "david" "admin" None.
Definition users : list User := [alice; bob; carol; david].

#[warnings="-inexact-float"] Definition laptop : Product :=
  Product.mk 1 "Gaming Laptop" 999.99 50
    "High-performance gaming laptop with RTX 3080, 32GB RAM, and 1TB SSD. Perfect for modern AAA games."
    None.
#[warnings="-inexact-float"] Definition smartphone : Product :=
  Product.mk 2 "Smartphone Pro" 599.99 100
    ("Latest flagship smartphone with 6.7" ++ dquote ++
     " OLED display, 108MP camera, and 5G connectivity. Great for mobile photography.")
    None.
#[warnings="-inexact-float"] Definition headphones : Product :=
  Product.mk 3 "Wireless Headphones" 99.99 200
    "Premium wireless headphones with active noise cancellation, 30hr battery life, and high-fidelity audio. Perfect for music lovers."
    None.
Definition products : list Product := [laptop; smartphone; headphones].

(** [now] stands for [datetime.now()]. *)
#[warnings="-inexact-float"] Definition order1 (now : Z) : Order := Order.mk 1 1 [1; 3] 1099.98 "pending" now.
#[warnings="-inexact-float"] Definition order2 (now : Z) : Order := Order.mk 2 1 [2] 599.99 "completed" now.
Definition orders (now : Z) : list Order := [order1 now; order2 now].

Definition rbac : RBACSystem := RBACSystem_init.
Definition system (now : Z) : ECommerceSystem :=
  ECommerceSystem.init rbac users products (orders now).
Definition inventory : InventoryManagement := InventoryManagement.init rbac products.

(** A user whose role is not in the registry. *)
Definition guest : User := User.mk 6 "grace" "guest" None.

(** A second customer, and a shop whose only order lists a product id
    (4) that is not in the catalogue. *)
Definition erin : User := User.mk 5 "erin" "customer" None.
#[warnings="-inexact-float"] Definition stray_order : Order := Order.mk 3 1 [4] 49.5 "pending" 0.
Definition stray_system : ECommerceSystem :=
  ECommerceSystem.init rbac users products [stray_order].
Definition vector_mgmt : VectorManagement := VectorManagement.mk rbac products_index.

(** Section 5 of the script: two roles are added, bob and carol promoted. *)
Definition rbac_updated : RBACSystem :=
  define
    (define rbac "senior_sales_rep"
       {[ "view_products"; "view_all_orders"; "update_order_status";
          "view_customer_info"; "update_product_stock" ]})
    "senior_data_scientist"
    {[ "view_products"; "vector_search_basic"; "vector_search_advanced";
       "vector_create"; "vector_delete"; "vector_update"; "vector_manage_index";
       "view_all_orders" ]}.
Definition bob_promoted : User := set_role "senior_sales_rep" bob.
Definition carol_promoted : User := set_role "senior_data_scientist" carol.
Definition system_updated : ECommerceSystem :=
  ECommerceSystem.init rbac_updated [alice; bob_promoted; carol_promoted; david]
                       products (orders 0).
#[warnings="-inexact-float"] Definition monitor_metadata : gmap string pyval :=
  <["name" := PStr "Gaming Monitor"]> (<["price" := PFloat 399.99]> ∅).
#[warnings="-inexact-float"] Definition monitor_match : Match :=
  Match.mk "v-1" 0.75
    (<["description" := PStr "New gaming monitor with 4K resolution"]> monitor_metadata).
End Demo.

(** ** Further definitions *)

(** The last element of [l] whose key is [k]. *)
Definition last_with_key {K V : Type} `{EqDecision K} (key_of : V -> K) (k : K)
           (l : list V) : option V :=
  last (filter (fun x => key_of x = k) l).

(** [orders_to_show] in the listing branch of [view_orders]. *)
Definition visible_orders (self : ECommerceSystem) (user : User) : list Order :=
  if holdsb (ECommerceSystem.rbac self) (User.role user) "view_all_orders"
  then dict_values (ECommerceSystem.orders self)
  else filter (fun o => Order.user_id o = User.id user)
              (dict_values (ECommerceSystem.orders self)).

(** [v] is the dict [view_orders] builds for [order]. *)
Definition view_of (self : ECommerceSystem) (order : Order) (v : OrderView) : Prop :=
  OrderView.id v = Order.id order /\
  OrderView.total v = Order.total order /\
  OrderView.status v = Order.status order /\
  names_of (ECommerceSystem.products self) (Order.products order) (OrderView.products v).

(** The entry [view_products] builds for a product. *)
Definition product_entry (p : Product) : string + ProductView :=
  inr (ProductView.mk (Product.id p) (Product.name p) (Product.price p) (Product.stock p)).

(** What [update_stock] leaves alone in a product: everything but [stock]. *)
Definition product_identity (p : Product)
  : Z * string * float * string * option string :=
  (Product.id p, Product.name p, Product.price p, Product.description p,
   Product.vector_id p).

(** The calls of a run that reach the encoder or the vector store, in order. *)
Fixpoint collaborator_calls (tr : list call) : list call :=
  match tr with
  | [] => []
  | c :: tr' =>
      if is_collaborator_call c then c :: collaborator_calls tr'
      else collaborator_calls tr'
  end.

(** The list [vector_search] returns from its [except] clause. *)
Definition search_error (e : exn) : result (list (string + SearchResult)) :=
  Return [inl ("Error performing vector search: " ++ exn_str e)].

(** What [vector_search] returns once the index has answered [results]:
    the empty list, the formatted matches, or the error of the first
    metadata key that is missing. *)
Definition search_outcome (results : QueryResponse)
  : result (list (string + SearchResult)) :=
  match matches results with
  | [] => Return []
  | _ :: _ =>
      match result_map ECommerceSystem.format_match (matches results) with
      | Return formatted_results => Return (inr <$> formatted_results)
      | Raise e => search_error e
      end
  end.

(** The string [create_vector] returns from its [except] clause. *)
Definition create_error (e : exn) : result string :=
  Return ("Error creating vector: " ++ exn_str e).

(** The answer of the index, when the call is a query. *)
Definition query_answer (c : call) : option (result QueryResponse) :=
  match c with
  | Call e x =>
      match e in extE X return X -> option (result QueryResponse) with
      | Query _ _ _ _ => fun x => Some x
      | _ => fun _ => None
      end x
  end.

(** [entry] is the dict [vector_search] builds for the match [m]. *)
Definition entry_of (m : Match) (entry : SearchResult) : Prop :=
  Match.metadata m !! "name" = Some (SearchResult.product_name entry) /\
  Match.metadata m !! "price" = Some (SearchResult.price entry) /\
  Match.metadata m !! "description" = Some (SearchResult.description entry) /\
  SearchResult.similarity_score entry = Match.score m /\
  SearchResult.vector_id entry = Match.id m.

(** ** test_user_actions *)

(** An [IndexError] (list index out of range), kept as its [str()]. *)
Definition IndexError : exn := Exception "list index out of range".

(** [isinstance(l, list) and l and isinstance(l[0], dict)] on a list a
    facade returned: the emptiness test guards the subscript. *)
Definition first_is_dict {A : Type} (l : list (string + A)) : bool :=
  match l with
  | inr _ :: _ => true
  | _ => false
  end.

(** [isinstance(l, list) and not isinstance(l[0], str)]: the subscript is
    not guarded and raises on the empty list. *)
Definition first_is_not_str {A : Type} (l : list (string + A)) : result bool :=
  match l with
  | [] => Raise IndexError
  | inl _ :: _ => Return false
  | inr _ :: _ => Return true
  end.

(** ["    Success" if ok else "    Failed"] *)
Definition verdict (ok : bool) : list frag :=
  if ok then [Lit "    Success"] else [Lit "    Failed"].

(** The metadata of the test product. *)
#[warnings="-inexact-float"] Definition test_product_metadata : gmap string pyval :=
  <["name" := PStr "Test Product"]> (<["price" := PFloat 99.99]> ∅).

(** [test_user_actions]; [vector_search] is called with its default
    [top_k = 3]. *)
Definition test_user_actions (system : ECommerceSystem) (vector_mgmt : VectorManagement)
           (user : User) : itree extE (result unit) :=
  ITree.bind (ITree.trigger
    (Print [Lit nl; Lit "Testing "; Lit (User.username user); Lit " (";
            Lit (User.role user); Lit "):"])) (fun _ =>
  ITree.bind (ITree.trigger (Print [Lit "1. Basic Operations:"])) (fun _ =>
  ITree.bind (ITree.trigger (Print [Lit "  a. Viewing products:"])) (fun _ =>
  match ECommerceSystem.view_products system user with
  | Raise e => Ret (Raise e)
  | Return products =>
      ITree.bind (ITree.trigger (Print (verdict (first_is_dict products)))) (fun _ =>
      ITree.bind (ITree.trigger (Print [Lit "  b. Viewing orders:"])) (fun _ =>
      match ECommerceSystem.view_orders system user None with
      | Raise e => Ret (Raise e)
      | Return orders =>
          ITree.bind (ITree.trigger (Print (verdict (first_is_dict orders)))) (fun _ =>
          ITree.bind (ITree.trigger (Print [Lit "2. Vector Operations:"])) (fun _ =>
          ITree.bind (ITree.trigger (Print [Lit "  a. Basic vector search:"])) (fun _ =>
          ITree.bind (ECommerceSystem.vector_search system user
                        "high performance laptop" 3) (fun r =>
          match r with
          | Raise e => Ret (Raise e)
          | Return search_results =>
              match first_is_not_str search_results with
              | Raise e => Ret (Raise e)
              | Return ok =>
                  ITree.bind (ITree.trigger (Print (verdict ok))) (fun _ =>
                  ITree.bind (ITree.trigger (Print [Lit "  b. Vector creation:"])) (fun _ =>
                  ITree.bind (VectorManagement.create_vector vector_mgmt user
                                "Test product description" test_product_metadata)
                  (fun r =>
                  match r with
                  | Raise e => Ret (Raise e)
                  | Return create_result =>
                      ITree.bind (ITree.trigger
                        (Print [Lit "    "; Lit create_result])) (fun _ =>
                      Ret (Return tt))
                  end)))
              end
          end))))
      end))
  end))).

(** ** Product objects shared by the facades

    [InventoryManagement] and [ECommerceSystem] are built from the same list
    of Product objects and keep references to them.  Here an object is named
    by a reference, the heap gives the state of each object, and a facade's
    dict maps a product id to a reference. *)

Module Shared.
Definition heap : Type := nat -> Product.

(** [obj.stock = n] on the object [r]. *)
Definition write_stock (h : heap) (r : nat) (n : Z) : heap :=
  fun r' => if decide (r' = r) then set_stock n (h r') else h r'.

(** [{p.id: p for p in products}], [products] being a list of references. *)
Definition index_by_id (h : heap) (products : list nat) : list (Z * nat) :=
  dict_of_list (fun r => Product.id (h r)) products.

(** The dict with each reference replaced by the state of its object. *)
Definition deref (h : heap) (d : list (Z * nat)) : list (Z * Product) :=
  (fun kr => (kr.1, h kr.2)) <$> d.

(** [InventoryManagement.update_stock], on references. *)
Definition update_stock (rbac : RBACSystem) (products : list (Z * nat)) (h : heap)
           (user : User) (product_id new_stock : Z) : result string * heap :=
  match has_permission rbac user "update_product_stock" with
  | Raise e => (Raise e, h)
  | Return b =>
      if negb b then (Return "Access Denied: No permission to update stock", h)
      else if negb (dict_mem products product_id)
      then (Return "Product not found", h)
      else
        match getitem_int products product_id with
        | Raise e => (Raise e, h)
        | Return r =>
            let h' := write_stock h r new_stock in
            match getitem_int products product_id with
            | Raise e => (Raise e, h')
            | Return r' =>
                (Return ("Stock updated successfully for " ++ Product.name (h' r')), h')
            end
        end
  end.

(** [ECommerceSystem.view_products], on references. *)
Definition view_products (rbac : RBACSystem) (products : list (Z * nat)) (h : heap)
           (user : User) : result (list (string + ProductView)) :=
  let* b := has_permission rbac user "view_products" in
  if negb b then Return [inl "Access Denied: No permission to view products"]
  else
    Return ((fun r => inr (ProductView.mk (Product.id (h r)) (Product.name (h r))
                             (Product.price (h r)) (Product.stock (h r))))
              <$> dict_values products).

(** The script's three products as objects 0, 1, 2. *)
Definition demo_heap : heap := fun r => nth r Demo.products Demo.laptop.
End Shared.

(** ** setup_pinecone_index

    The calls to the Pinecone client [pc], the console and [time.sleep]. *)

Variant setupE : Type -> Type :=
| SPrint (line : list frag) : setupE unit
| ListIndexNames : setupE (result (list string))
    (* [pc.list_indexes().names()] *)
| CreateIndex (name : string) (dimension : Z) (metric cloud region : string)
    : setupE (result unit)
    (* [pc.create_index(name=..., dimension=..., metric=...,
        spec=ServerlessSpec(cloud=..., region=...))] *)
| DescribeIndexReady (name : string) : setupE (result bool)
    (* [pc.describe_index(name).status['ready']] *)
| Sleep (seconds : Z) : setupE unit
    (* [time.sleep(seconds)] *)
| GetIndex (name : string) : setupE (result string).
    (* [pc.Index(name)], the handle of the index *)

Inductive setup_call : Type :=
| SCall {X : Type} (e : setupE X) (x : X).

(** [runs t tr r]: [t] can run to completion, making exactly the calls [tr]
    in order and returning [r]. *)
Inductive runs {R : Type} : itree setupE R -> list setup_call -> R -> Prop :=
| runs_ret t r :
    observe t = RetF r -> runs t [] r
| runs_tau t u tr r :
    observe t = TauF u -> runs u tr r -> runs t tr r
| runs_vis t X (e : setupE X) k x tr r :
    observe t = VisF e k -> runs (k x) tr r -> runs t (SCall e x :: tr) r.

(** [needle in haystack] on strings. *)
Fixpoint contains (needle haystack : string) : bool :=
  String.prefix needle haystack ||
  match haystack with
  | EmptyString => false
  | String _ rest => contains needle rest
  end.

(** [while not pc.describe_index(index_name).status['ready']: time.sleep(1)] *)
Definition wait_until_ready (index_name : string) : itree setupE (result unit) :=
  ITree.iter (fun _ : unit =>
    ITree.bind (ITree.trigger (DescribeIndexReady index_name)) (fun r =>
    match r with
    | Raise e => Ret (inr (Raise e))
    | Return ready =>
        if negb ready
        then ITree.bind (ITree.trigger (Sleep 1)) (fun _ => Ret (inl tt))
        else Ret (inr (Return tt))
    end)) tt.

(** The [if]/[else] of the [try] block of [setup_pinecone_index]. *)
Definition ensure_index (index_name : string) (dimension : Z) (existing : list string)
  : itree setupE (result unit) :=
  if negb (bool_decide (index_name ∈ existing))
  then
    ITree.bind (ITree.trigger
      (SPrint [Lit "Creating new Pinecone index: "; Lit index_name])) (fun _ =>
    ITree.bind (ITree.trigger
      (CreateIndex index_name dimension "cosine" "aws" "us-east-1")) (fun r =>
    match r with
    | Raise e => Ret (Raise e)
    | Return _ =>
        ITree.bind (ITree.trigger (SPrint [Lit "Index created successfully!"])) (fun _ =>
        ITree.bind (ITree.trigger
          (SPrint [Lit "Waiting for index to be ready..."])) (fun _ =>
        wait_until_ready index_name))
    end))
  else
    ITree.bind (ITree.trigger
      (SPrint [Lit "Using existing index: "; Lit index_name])) (fun _ =>
    Ret (Return tt)).

(** The body of the [try] block of [setup_pinecone_index]. *)
Definition setup_try (index_name : string) (dimension : Z)
  : itree setupE (result string) :=
  ITree.bind (ITree.trigger ListIndexNames) (fun r =>
  match r with
  | Raise e => Ret (Raise e)
  | Return existing =>
      ITree.bind (ensure_index index_name dimension existing) (fun r =>
      match r with
      | Raise e => Ret (Raise e)
      | Return _ =>
          ITree.bind (ITree.trigger (GetIndex index_name)) (fun r =>
          match r with
          | Raise e => Ret (Raise e)
          | Return index =>
              ITree.bind (ITree.trigger
                (SPrint [Lit "Successfully connected to index!"])) (fun _ =>
              Ret (Return index))
          end)
      end)
  end).

(** The [except Exception as e] clause of [setup_pinecone_index]. *)
Definition setup_except (r : result string) : itree setupE (option string) :=
  match r with
  | Return index => Ret (Some index)
  | Raise e =>
      ITree.bind (ITree.trigger
        (SPrint [Lit "Error setting up Pinecone index: "; Lit (exn_str e)])) (fun _ =>
      if contains "response body" (exn_str e)
      then ITree.bind (ITree.trigger
             (SPrint [Lit "Details:"; Lit " "; Lit (exn_str e)])) (fun _ => Ret None)
      else Ret None)
  end.

(** [setup_pinecone_index]; the script calls it with the defaults
    ["products"] and [384]. *)
Definition setup_pinecone_index (index_name : string) (dimension : Z)
  : itree setupE (option string) :=
  ITree.bind (setup_try index_name dimension) setup_except.

(** The calls that reach the Pinecone client. *)
Definition is_pinecone_call (c : setup_call) : bool :=
  match c with
  | SCall e _ =>
      match e with
      | SPrint _ | Sleep _ => false
      | _ => true
      end
  end.

(** The call was answered with an exception. *)
Definition call_failed (c : setup_call) : bool :=
  match c with
  | SCall e x =>
      match e in setupE X return X -> bool with
      | ListIndexNames => fun x => if x is Raise _ then true else false
      | CreateIndex _ _ _ _ _ => fun x => if x is Raise _ then true else false
      | DescribeIndexReady _ => fun x => if x is Raise _ then true else false
      | GetIndex _ => fun x => if x is Raise _ then true else false
      | SPrint _ | Sleep _ => fun _ => false
      end x
  end.

(** One round of the polling loop that found the index not ready. *)
Definition not_ready_round (index_name : string) : list setup_call :=
  [SCall (DescribeIndexReady index_name) (Return false); SCall (Sleep 1) tt].

(** The calls the Pinecone client sees, prints and sleeps left out. *)
Fixpoint pinecone_calls (tr : list setup_call) : list setup_call :=
  match tr with
  | [] => []
  | c :: tr' =>
      if is_pinecone_call c then c :: pinecone_calls tr' else pinecone_calls tr'
  end.

(** [n] rounds of the polling loop that found the index not ready. *)
Fixpoint not_ready_rounds (n : nat) (index_name : string) : list setup_call :=
  match n with
  | O => []
  | S n' => (not_ready_round index_name ++ not_ready_rounds n' index_name)%list
  end.

(** The seconds slept, one entry per [time.sleep] call. *)
Fixpoint sleeps (tr : list setup_call) : list Z :=
  match tr with
  | [] => []
  | SCall e _ :: tr' =>
      match e with
      | Sleep seconds => seconds :: sleeps tr'
      | _ => sleeps tr'
      end
  end.

(** [index], or [None] when [pc.Index] raised. *)
Definition handle_of (g : result string) : option string :=
  match g with
  | Return index => Some index
  | Raise _ => None
  end.

(** The names the client listed, when the call is the listing. *)
Definition listed_names (c : setup_call) : option (result (list string)) :=
  match c with
  | SCall e x =>
      match e in setupE X return X -> option (result (list string)) with
      | ListIndexNames => fun x => Some x
      | _ => fun _ => None
      end x
  end.

(** * Properties *)

Lemma holdsb_holds self r p : holdsb self r p = true <-> holds self r p.
Proof.
  unfold holdsb, holds. destruct (role_permissions self !! r) as [s|].
  - rewrite bool_decide_eq_true. split.
    + intros H. exists s. split; [reflexivity | exact H].
    + intros (s' & Hs & Hp). congruence.
  - split; [discriminate | intros (s & Hs & _); discriminate].
Qed.

(** The subscript in [has_permission] is guarded by the membership test:
    the call always returns, and returns [holdsb]. *)
Lemma has_permission_holdsb self user p :
  has_permission self user p = Return (holdsb self (User.role user) p).
Proof.
  unfold has_permission, holdsb, getitem_str.
  destruct (role_permissions self !! User.role user) as [s|] eqn:E.
  - rewrite bool_decide_eq_false_2; [reflexivity |].
    intros H. apply H. apply elem_of_dom. rewrite E. eauto.
  - rewrite bool_decide_eq_true_2; [reflexivity |].
    apply not_elem_of_dom. exact E.
Qed.

(** C1. [has_permission] returns (never raises), and returns true exactly
    when the user's role is a key of the registry and the permission is in
    that role's set; for a role that is not a key, [get_user_permissions]
    is the empty set and [has_permission] returns false for every
    permission. *)
Theorem has_permission_iff_role_holds (self : RBACSystem) (user : User) :
  (forall permission,
      (exists b, has_permission self user permission = Return b) /\
      (has_permission self user permission = Return true <->
       holds self (User.role user) permission)) /\
  (role_permissions self !! User.role user = None ->
   get_user_permissions self user = ∅ /\
   forall permission, has_permission self user permission = Return false).
Proof.
  split.
  - intros p. rewrite has_permission_holdsb. split; [eauto |].
    rewrite <- holdsb_holds. split; [congruence | intros ->; reflexivity].
  - intros E. unfold get_user_permissions. rewrite E. split; [reflexivity |].
    intros p. rewrite has_permission_holdsb. unfold holdsb. rewrite E. reflexivity.
Qed.

Lemma has_permission_iff_role_holds_witness :
  get_user_permissions RBACSystem_init Demo.guest = ∅ /\
  forall permission, has_permission RBACSystem_init Demo.guest permission = Return false.
Proof.
  apply (proj2 (has_permission_iff_role_holds RBACSystem_init Demo.guest)).
  cbn. rewrite !lookup_insert_ne by discriminate. apply lookup_empty.
Defined.

(** ** Dicts *)

Section pydict_facts.
Context {K V : Type} `{EqDecision K}.
Implicit Types (d : list (K * V)) (k : K) (v : V).

Lemma dict_get_set_eq d k v : dict_get (dict_set d k v) k = Some v.
Proof.
  induction d as [|[k' v'] d IH]; simpl.
  - rewrite decide_True; reflexivity.
  - destruct (decide (k' = k)) as [->|Hne]; simpl.
    + rewrite decide_True; reflexivity.
    + rewrite decide_False; assumption.
Qed.

Lemma dict_get_set_ne d k k' v :
  k ≠ k' -> dict_get (dict_set d k v) k' = dict_get d k'.
Proof.
  intros Hne. induction d as [|[k0 v0] d IH]; simpl.
  - rewrite decide_False; [reflexivity | assumption].
  - destruct (decide (k0 = k)) as [->|Hk]; simpl.
    + rewrite !decide_False; [reflexivity | assumption | assumption].
    + rewrite IH. reflexivity.
Qed.

Lemma dict_mem_true d k : dict_mem d k = true <-> exists v, dict_get d k = Some v.
Proof.
  unfold dict_mem. destruct (dict_get d k) as [v|].
  - split; [eauto | reflexivity].
  - split; [discriminate | intros [v Hv]; discriminate].
Qed.

Lemma dict_mem_false d k : dict_mem d k = false <-> dict_get d k = None.
Proof.
  unfold dict_mem. destruct (dict_get d k); split; congruence.
Qed.
End pydict_facts.

(** ** Order lookup *)

Lemma order_view_resolved self order :
  products_resolved self order ->
  exists names,
    names_of (ECommerceSystem.products self) (Order.products order) names /\
    ECommerceSystem.order_view self order
    = Return (OrderView.mk (Order.id order) (Order.total order) (Order.status order) names).
Proof.
  unfold products_resolved. intros Hall. unfold ECommerceSystem.order_view, names_of.
  induction Hall as [|pid pids Hpid _ IH].
  - exists []. split; [constructor | reflexivity].
  - destruct IH as (names & Hnames & Heq).
    apply dict_mem_true in Hpid as [p Hp].
    exists (Product.name p :: names). split.
    + constructor; [eauto | exact Hnames].
    + simpl. unfold getitem_int at 1. rewrite Hp. simpl.
      destruct (result_map _ pids) as [ns|e]; simpl in *; congruence.
Qed.

(** [view_orders] with an order id, branch by branch. *)
Lemma view_orders_single self user order_id :
  ECommerceSystem.view_orders self user (Some order_id) =
  let all := holdsb (ECommerceSystem.rbac self) (User.role user) "view_all_orders" in
  let own := holdsb (ECommerceSystem.rbac self) (User.role user) "view_own_orders" in
  if negb (all || own) then orders_gate_denied
  else
    match dict_get (ECommerceSystem.orders self) order_id with
    | None => order_not_found
    | Some order =>
        if negb all && bool_decide (Order.user_id order ≠ User.id user)
        then order_forbidden
        else let* v := ECommerceSystem.order_view self order in Return [inr v]
    end.
Proof.
  unfold ECommerceSystem.view_orders. rewrite !has_permission_holdsb. simpl.
  destruct (holdsb _ _ "view_all_orders"); simpl; [reflexivity |].
  destruct (holdsb _ _ "view_own_orders"); reflexivity.
Qed.

#[warnings="-inexact-float"] Example demo_alice_views_own_order :
  ECommerceSystem.view_orders (Demo.system 0) Demo.alice (Some 1)
  = Return [inr (OrderView.mk 1 1099.98 "pending" ["Gaming Laptop"; "Wireless Headphones"])].
Proof. vm_compute. reflexivity. Qed.

Lemma view_orders_found self user order_id order :
  dict_get (ECommerceSystem.orders self) order_id = Some order ->
  ECommerceSystem.view_orders self user (Some order_id) =
  let all := holdsb (ECommerceSystem.rbac self) (User.role user) "view_all_orders" in
  let own := holdsb (ECommerceSystem.rbac self) (User.role user) "view_own_orders" in
  if negb (all || own) then orders_gate_denied
  else if negb all && bool_decide (Order.user_id order ≠ User.id user)
       then order_forbidden
       else let* v := ECommerceSystem.order_view self order in Return [inr v].
Proof. intros E. rewrite view_orders_single, E. reflexivity. Qed.

Lemma holdsb_false self r p : holdsb self r p = false <-> ~ holds self r p.
Proof.
  rewrite <- holdsb_holds. destruct (holdsb self r p); split; congruence.
Qed.

(** The details of an order are never one of the one-line results. *)
Lemma order_details_not_message self order (s : string) :
  (let* v := ECommerceSystem.order_view self order in Return [inr v])
  <> (Return [inl s] : result (list (string + OrderView))).
Proof.
  destruct (ECommerceSystem.order_view self order); simpl; congruence.
Qed.

(** C2, as stated, fails: an admin (who holds view_all_orders) asks for an
    existing order that lists a product id missing from the product store;
    [self.products[pid]] raises KeyError and no details are returned. *)
Lemma view_orders_unresolved_product_raises :
  dict_get (ECommerceSystem.orders Demo.stray_system) 3 = Some Demo.stray_order /\
  holds (ECommerceSystem.rbac Demo.stray_system) (User.role Demo.david) "view_all_orders" /\
  ECommerceSystem.view_orders Demo.stray_system Demo.david (Some 3)
  = Raise (KeyError (KInt 4)) /\
  ~ (exists v, ECommerceSystem.view_orders Demo.stray_system Demo.david (Some 3)
               = Return [inr v]).
Proof.
  assert (E : ECommerceSystem.view_orders Demo.stray_system Demo.david (Some 3)
              = Raise (KeyError (KInt 4))) by (vm_compute; reflexivity).
  split; [reflexivity |]. split; [apply holdsb_holds; vm_compute; reflexivity |].
  split; [exact E |]. intros [v Hv]. rewrite E in Hv. discriminate.
Qed.

(** C2 (amended). Single-order lookup of an existing order.  When every
    product id of the order is a key of the product store: a caller holding
    view_all_orders gets the order's details whoever owns it, and a caller
    holding only view_own_orders gets them when the order's user_id is the
    caller's id.  A caller holding view_own_orders, lacking view_all_orders,
    whose id differs from the order's user_id gets the ownership denial. *)
Theorem view_orders_single_order_visibility
        (self : ECommerceSystem) (user : User) (order_id : Z) (order : Order) :
  dict_get (ECommerceSystem.orders self) order_id = Some order ->
  (holds (ECommerceSystem.rbac self) (User.role user) "view_all_orders" ->
   products_resolved self order ->
   exists names,
     names_of (ECommerceSystem.products self) (Order.products order) names /\
     ECommerceSystem.view_orders self user (Some order_id)
     = Return [inr (OrderView.mk (Order.id order) (Order.total order)
                                 (Order.status order) names)]) /\
  (~ holds (ECommerceSystem.rbac self) (User.role user) "view_all_orders" ->
   holds (ECommerceSystem.rbac self) (User.role user) "view_own_orders" ->
   Order.user_id order = User.id user ->
   products_resolved self order ->
   exists names,
     names_of (ECommerceSystem.products self) (Order.products order) names /\
     ECommerceSystem.view_orders self user (Some order_id)
     = Return [inr (OrderView.mk (Order.id order) (Order.total order)
                                 (Order.status order) names)]) /\
  (~ holds (ECommerceSystem.rbac self) (User.role user) "view_all_orders" ->
   holds (ECommerceSystem.rbac self) (User.role user) "view_own_orders" ->
   Order.user_id order <> User.id user ->
   ECommerceSystem.view_orders self user (Some order_id) = order_forbidden).
Proof.
  intros E. rewrite (view_orders_found _ _ _ _ E). cbv zeta.
  split; [| split].
  - intros Hall Hres. apply holdsb_holds in Hall. rewrite Hall. simpl.
    destruct (order_view_resolved self order Hres) as (names & Hn & Hv).
    exists names. split; [exact Hn |]. rewrite Hv. reflexivity.
  - intros Hall Hown Howner Hres.
    apply holdsb_false in Hall. apply holdsb_holds in Hown.
    rewrite Hall, Hown. simpl.
    rewrite bool_decide_eq_false_2 by (intros H; apply H; exact Howner).
    destruct (order_view_resolved self order Hres) as (names & Hn & Hv).
    exists names. split; [exact Hn |]. rewrite Hv. reflexivity.
  - intros Hall Hown Howner.
    apply holdsb_false in Hall. apply holdsb_holds in Hown.
    rewrite Hall, Hown. simpl.
    rewrite bool_decide_eq_true_2 by exact Howner. reflexivity.
Qed.

Lemma view_orders_single_order_visibility_witness :
  (exists names,
      names_of (ECommerceSystem.products (Demo.system 0)) [1; 3] names /\
      ECommerceSystem.view_orders (Demo.system 0) Demo.david (Some 1)
      = Return [inr (OrderView.mk 1 (Order.total (Demo.order1 0)) "pending" names)]) /\
  (exists names,
      names_of (ECommerceSystem.products (Demo.system 0)) [1; 3] names /\
      ECommerceSystem.view_orders (Demo.system 0) Demo.alice (Some 1)
      = Return [inr (OrderView.mk 1 (Order.total (Demo.order1 0)) "pending" names)]) /\
  ECommerceSystem.view_orders (Demo.system 0) Demo.erin (Some 1) = order_forbidden.
Proof.
  assert (Hres : products_resolved (Demo.system 0) (Demo.order1 0))
    by (repeat constructor).
  split; [| split].
  - apply (proj1 (view_orders_single_order_visibility
                    (Demo.system 0) Demo.david 1 (Demo.order1 0) eq_refl)).
    + apply holdsb_holds. vm_compute. reflexivity.
    + exact Hres.
  - apply (proj1 (proj2 (view_orders_single_order_visibility
                           (Demo.system 0) Demo.alice 1 (Demo.order1 0) eq_refl))).
    + apply holdsb_false. vm_compute. reflexivity.
    + apply holdsb_holds. vm_compute. reflexivity.
    + reflexivity.
    + exact Hres.
  - apply (proj2 (proj2 (view_orders_single_order_visibility
                           (Demo.system 0) Demo.erin 1 (Demo.order1 0) eq_refl))).
    + apply holdsb_false. vm_compute. reflexivity.
    + apply holdsb_holds. vm_compute. reflexivity.
    + vm_compute. discriminate.
Defined.

(** C7. For a caller holding view_own_orders or view_all_orders, asking for
    an order id that is absent yields the not-found result; asking for an
    existing order of another principal, without view_all_orders, yields the
    ownership denial; the two results are different values, and each is
    returned only in its own situation. *)
Theorem not_found_and_forbidden_distinct
        (self : ECommerceSystem) (user : User) (order_id : Z) :
  holds (ECommerceSystem.rbac self) (User.role user) "view_own_orders" \/
  holds (ECommerceSystem.rbac self) (User.role user) "view_all_orders" ->
  (dict_get (ECommerceSystem.orders self) order_id = None ->
   ECommerceSystem.view_orders self user (Some order_id) = order_not_found) /\
  (forall order,
      dict_get (ECommerceSystem.orders self) order_id = Some order ->
      ~ holds (ECommerceSystem.rbac self) (User.role user) "view_all_orders" ->
      Order.user_id order <> User.id user ->
      ECommerceSystem.view_orders self user (Some order_id) = order_forbidden) /\
  order_not_found <> order_forbidden /\
  (ECommerceSystem.view_orders self user (Some order_id) = order_not_found ->
   dict_get (ECommerceSystem.orders self) order_id = None) /\
  (ECommerceSystem.view_orders self user (Some order_id) = order_forbidden ->
   exists order,
     dict_get (ECommerceSystem.orders self) order_id = Some order /\
     Order.user_id order <> User.id user /\
     ~ holds (ECommerceSystem.rbac self) (User.role user) "view_all_orders").
Proof.
  intros Hgate.
  assert (Hg : holdsb (ECommerceSystem.rbac self) (User.role user) "view_all_orders"
               || holdsb (ECommerceSystem.rbac self) (User.role user) "view_own_orders"
               = true).
  { destruct Hgate as [H|H]; apply holdsb_holds in H; rewrite H;
      [apply orb_true_r | reflexivity]. }
  rewrite view_orders_single. cbv zeta. rewrite Hg. simpl.
  split; [| split; [| split; [| split]]].
  - intros ->. reflexivity.
  - intros order -> Hall Howner. apply holdsb_false in Hall. rewrite Hall. simpl.
    rewrite bool_decide_eq_true_2 by exact Howner. reflexivity.
  - discriminate.
  - destruct (dict_get _ order_id) as [order|]; [| reflexivity].
    destruct (negb _ && _); [discriminate |].
    intros H. exfalso. exact (order_details_not_message _ _ _ H).
  - destruct (dict_get _ order_id) as [order|]; [| discriminate].
    destruct (holdsb _ _ "view_all_orders") eqn:Hall; simpl.
    + intros H. exfalso. exact (order_details_not_message _ _ _ H).
    + case_bool_decide as Howner.
      * intros _. exists order. split; [reflexivity |]. split; [exact Howner |].
        apply holdsb_false. exact Hall.
      * intros H. exfalso. exact (order_details_not_message _ _ _ H).
Qed.

Lemma not_found_and_forbidden_distinct_witness :
  ECommerceSystem.view_orders (Demo.system 0) Demo.erin (Some 9) = order_not_found /\
  ECommerceSystem.view_orders (Demo.system 0) Demo.erin (Some 1) = order_forbidden /\
  order_not_found <> order_forbidden /\
  dict_get (ECommerceSystem.orders (Demo.system 0)) 9 = None /\
  (exists order,
      dict_get (ECommerceSystem.orders (Demo.system 0)) 1 = Some order /\
      Order.user_id order <> User.id Demo.erin /\
      ~ holds (ECommerceSystem.rbac (Demo.system 0)) (User.role Demo.erin)
          "view_all_orders").
Proof.
  assert (Hown : holds (ECommerceSystem.rbac (Demo.system 0)) (User.role Demo.erin)
                       "view_own_orders")
    by (apply holdsb_holds; vm_compute; reflexivity).
  pose proof (not_found_and_forbidden_distinct (Demo.system 0) Demo.erin 9
                (or_introl Hown)) as (Habsent & _ & Hdistinct & Hnf & _).
  pose proof (not_found_and_forbidden_distinct (Demo.system 0) Demo.erin 1
                (or_introl Hown)) as (_ & Hforeign & _ & _ & Hfb).
  assert (H9 : ECommerceSystem.view_orders (Demo.system 0) Demo.erin (Some 9)
               = order_not_found) by (apply Habsent; reflexivity).
  assert (H1 : ECommerceSystem.view_orders (Demo.system 0) Demo.erin (Some 1)
               = order_forbidden).
  { apply (Hforeign (Demo.order1 0)).
    - reflexivity.
    - apply holdsb_false. vm_compute. reflexivity.
    - vm_compute. discriminate. }
  split; [exact H9 |]. split; [exact H1 |]. split; [exact Hdistinct |].
  split; [exact (Hnf H9) | exact (Hfb H1)].
Defined.

(** C10. The not-found check comes before the ownership check: a caller
    holding view_own_orders gets the not-found result exactly when the order
    id is absent from the store, so the answer tells whether the id exists,
    also for an order the ownership rule forbids (that one yields the
    ownership denial, a different value). *)
Theorem not_found_precedes_ownership
        (self : ECommerceSystem) (user : User) (order_id : Z) :
  holds (ECommerceSystem.rbac self) (User.role user) "view_own_orders" ->
  (ECommerceSystem.view_orders self user (Some order_id) = order_not_found <->
   dict_get (ECommerceSystem.orders self) order_id = None) /\
  (forall order,
      dict_get (ECommerceSystem.orders self) order_id = Some order ->
      ~ holds (ECommerceSystem.rbac self) (User.role user) "view_all_orders" ->
      Order.user_id order <> User.id user ->
      ECommerceSystem.view_orders self user (Some order_id) = order_forbidden /\
      order_forbidden <> order_not_found).
Proof.
  intros Hown. apply holdsb_holds in Hown.
  rewrite view_orders_single. cbv zeta. rewrite Hown, orb_true_r. simpl.
  split.
  - destruct (dict_get _ order_id) as [order|]; [| split; reflexivity].
    split; [| discriminate].
    destruct (negb _ && _); [discriminate |].
    intros H. exfalso. exact (order_details_not_message _ _ _ H).
  - intros order -> Hall Howner. apply holdsb_false in Hall. rewrite Hall. simpl.
    rewrite bool_decide_eq_true_2 by exact Howner. split; [reflexivity | discriminate].
Qed.

Lemma not_found_precedes_ownership_witness :
  (ECommerceSystem.view_orders (Demo.system 0) Demo.alice (Some 7) = order_not_found <->
   dict_get (ECommerceSystem.orders (Demo.system 0)) 7 = None) /\
  ECommerceSystem.view_orders (Demo.system 0) Demo.erin (Some 2) = order_forbidden.
Proof.
  split.
  - apply (proj1 (not_found_precedes_ownership (Demo.system 0) Demo.alice 7
                    ltac:(apply holdsb_holds; vm_compute; reflexivity))).
  - apply (proj2 (not_found_precedes_ownership (Demo.system 0) Demo.erin 2
                    ltac:(apply holdsb_holds; vm_compute; reflexivity))
                 (Demo.order2 0)).
    + reflexivity.
    + apply holdsb_false. vm_compute. reflexivity.
    + vm_compute. discriminate.
Defined.

(** ** Stock updates *)

(** [update_stock], branch by branch: the guarded subscripts never raise. *)
Lemma update_stock_cases self user product_id new_stock :
  InventoryManagement.update_stock self user product_id new_stock =
  if negb (holdsb (InventoryManagement.rbac self) (User.role user) "update_product_stock")
  then (stock_denied, self)
  else
    match dict_get (InventoryManagement.products self) product_id with
    | None => (product_not_found, self)
    | Some p =>
        (Return ("Stock updated successfully for " ++ Product.name p),
         InventoryManagement.mk
           (InventoryManagement.rbac self)
           (dict_set (InventoryManagement.products self) product_id
                     (set_stock new_stock p)))
    end.
Proof.
  unfold InventoryManagement.update_stock. rewrite has_permission_holdsb.
  destruct (holdsb _ _ _); simpl; [| reflexivity].
  unfold dict_mem, getitem_int.
  destruct (dict_get (InventoryManagement.products self) product_id) as [p|] eqn:E;
    simpl; [| reflexivity].
  rewrite dict_get_set_eq. reflexivity.
Qed.

(** C8. [update_stock] returns a value in every case.  With
    update_product_stock and an existing product id it stores the new stock
    for that product, leaving its other fields and every other product as
    they were, and reports success; without the permission it returns the
    denial, with the permission and an unknown product id it returns
    not-found, and in both cases the object is unchanged.  So the store is
    written exactly when the permission is held and the product exists. *)
Theorem update_stock_guarded
        (self : InventoryManagement) (user : User) (product_id new_stock : Z) :
  let permitted :=
    holds (InventoryManagement.rbac self) (User.role user) "update_product_stock" in
  let out := InventoryManagement.update_stock self user product_id new_stock in
  (permitted ->
   forall p, dict_get (InventoryManagement.products self) product_id = Some p ->
     out.1 = Return ("Stock updated successfully for " ++ Product.name p) /\
     (exists p',
         dict_get (InventoryManagement.products out.2) product_id = Some p' /\
         Product.stock p' = new_stock /\
         p' = set_stock new_stock p) /\
     (forall q, q <> product_id ->
        dict_get (InventoryManagement.products out.2) q
        = dict_get (InventoryManagement.products self) q) /\
     InventoryManagement.rbac out.2 = InventoryManagement.rbac self) /\
  (~ permitted -> out = (stock_denied, self)) /\
  (permitted -> dict_get (InventoryManagement.products self) product_id = None ->
   out = (product_not_found, self)) /\
  (out.2 <> self ->
   permitted /\ exists p, dict_get (InventoryManagement.products self) product_id = Some p) /\
  ((exists name, out.1 = Return ("Stock updated successfully for " ++ name)) <->
   permitted /\ exists p, dict_get (InventoryManagement.products self) product_id = Some p).
Proof.
  cbv zeta. rewrite update_stock_cases.
  destruct (holdsb _ _ _) eqn:Hp; simpl.
  - apply holdsb_holds in Hp.
    destruct (dict_get (InventoryManagement.products self) product_id) as [p|] eqn:E;
      simpl.
    + split; [| split; [| split; [| split]]].
      * intros _ p0 [= <-]. split; [reflexivity |]. split; [| split].
        -- exists (set_stock new_stock p). rewrite dict_get_set_eq. auto.
        -- intros q Hq. apply dict_get_set_ne. congruence.
        -- reflexivity.
      * intros H. contradiction.
      * intros _ [=].
      * intros _. eauto.
      * split; [eauto | intros _; eauto].
    + split; [| split; [| split; [| split]]].
      * intros _ p [=].
      * intros H. contradiction.
      * reflexivity.
      * intros H. contradiction.
      * split; [intros [name [=]] | intros [_ [p [=]]]].
  - apply holdsb_false in Hp.
    split; [| split; [| split; [| split]]].
    + intros H. contradiction.
    + reflexivity.
    + intros H. contradiction.
    + intros H. contradiction.
    + split; [intros [name [=]] | intros [H _]; contradiction].
Qed.

Lemma update_stock_guarded_witness :
  (InventoryManagement.update_stock Demo.inventory Demo.david 1 45).1
  = Return "Stock updated successfully for Gaming Laptop" /\
  InventoryManagement.update_stock Demo.inventory Demo.alice 1 45
  = (stock_denied, Demo.inventory) /\
  InventoryManagement.update_stock Demo.inventory Demo.david 9 45
  = (product_not_found, Demo.inventory) /\
  (holds (InventoryManagement.rbac Demo.inventory) (User.role Demo.david)
         "update_product_stock" /\
   exists p, dict_get (InventoryManagement.products Demo.inventory) 1 = Some p).
Proof.
  assert (Hd : holds (InventoryManagement.rbac Demo.inventory) (User.role Demo.david)
                     "update_product_stock")
    by (apply holdsb_holds; vm_compute; reflexivity).
  split; [| split; [| split]].
  - apply (proj1 (update_stock_guarded Demo.inventory Demo.david 1 45) Hd Demo.laptop
                 eq_refl).
  - apply (proj1 (proj2 (update_stock_guarded Demo.inventory Demo.alice 1 45))).
    apply holdsb_false. vm_compute. reflexivity.
  - apply (proj1 (proj2 (proj2 (update_stock_guarded Demo.inventory Demo.david 9 45))) Hd).
    reflexivity.
  - apply (proj1 (proj2 (proj2 (proj2
             (update_stock_guarded Demo.inventory Demo.david 1 45))))).
    intros H. apply (f_equal (fun inv => dict_get (InventoryManagement.products inv) 1)) in H.
    vm_compute in H. discriminate H.
Defined.

(** ** The registry and the script *)

Lemma run_app w ss1 ss2 :
  run w (ss1 ++ ss2) =
  ((run (run w ss1).1 ss2).1, ((run w ss1).2 ++ (run (run w ss1).1 ss2).2)%list).
Proof.
  revert w. induction ss1 as [|s ss1 IH]; intros w; simpl.
  - destruct (run w ss2). reflexivity.
  - destruct (step w s) as [w' d]. rewrite IH.
    destruct (run w' ss1) as [w1 d1]. simpl.
    destruct (run w1 ss2) as [w2 d2]. simpl.
    rewrite app_assoc. reflexivity.
Qed.

(** C5. A principal whose role lacks X is reassigned to a defined role
    whose set contains X.  The check made before the reassignment returned
    false and the very next check returns true; the reassignment changes the
    user object only, not the registry; the decisions a script made before
    the reassignment are those the script makes without it, whatever
    follows; and a check leaves the state as it found it, so every check
    reads the role the user has at that moment. *)
Theorem promotion_effective_immediately
        (w : world) (P : nat) (u : User) (r X : string) (S : gset string) :
  users w !! P = Some u ->
  ~ holds (rbac w) (User.role u) X ->
  role_permissions (rbac w) !! r = Some S ->
  X ∈ S ->
  (run w [Check P X; SetRole P r; Check P X]).2 = [Return false; Return true] /\
  (step (step w (SetRole P r)).1 (Check P X)).2 = Some (Return true) /\
  rbac (step w (SetRole P r)).1 = rbac w /\
  (forall w0 pre post,
      (run w0 pre).1 = w ->
      (run w0 (pre ++ SetRole P r :: post)).2
      = ((run w0 pre).2 ++ (run w (SetRole P r :: post)).2)%list) /\
  (forall w1 p x, (step w1 (Check p x)).1 = w1).
Proof.
  intros Hu Hlack Hr HX.
  assert (Hafter : (step (step w (SetRole P r)).1 (Check P X)).2 = Some (Return true)).
  { simpl. rewrite list_lookup_alter, Hu.
    rewrite decide_True by reflexivity. simpl. f_equal.
    rewrite has_permission_holdsb. f_equal. apply holdsb_holds.
    exists S. split; [exact Hr | exact HX]. }
  split; [| split; [| split; [| split]]].
  - simpl in *. rewrite Hu. simpl. rewrite Hafter. simpl.
    rewrite has_permission_holdsb. do 2 f_equal. apply holdsb_false. exact Hlack.
  - exact Hafter.
  - reflexivity.
  - intros w0 pre post <-. rewrite run_app. reflexivity.
  - reflexivity.
Qed.

Lemma promotion_effective_immediately_witness :
  (run {| rbac := Demo.rbac; users := Demo.users |}
       [Check 0%nat "vector_manage_index"; SetRole 0%nat "admin";
        Check 0%nat "vector_manage_index"]).2
  = [Return false; Return true].
Proof.
  pose (admin_set := ({[ "view_products"; "update_product_stock"; "view_all_orders";
              "update_order_status"; "view_customer_info"; "manage_users";
              "place_order"; "vector_search_basic"; "vector_search_advanced";
              "vector_create"; "vector_delete"; "vector_update";
              "vector_manage_index" ]} : gset string)).
  assert (H1 : users {| rbac := Demo.rbac; users := Demo.users |} !! 0%nat
               = Some Demo.alice) by reflexivity.
  assert (H2 : ~ holds Demo.rbac (User.role Demo.alice) "vector_manage_index")
    by (apply holdsb_false; vm_compute; reflexivity).
  assert (H3 : role_permissions Demo.rbac !! "admin" = Some admin_set).
  { cbn. rewrite !lookup_insert_ne by discriminate. apply lookup_insert_eq. }
  assert (H4 : "vector_manage_index" ∈ admin_set)
    by (apply (bool_decide_unpack ("vector_manage_index" ∈ admin_set));
        vm_compute; exact I).
  exact (proj1 (promotion_effective_immediately
                  {| rbac := Demo.rbac; users := Demo.users |} 0%nat Demo.alice
                  "admin" "vector_manage_index" admin_set H1 H2 H3 H4)).
Defined.

(** C4. Defining a role replaces its permission set: after defining R with
    S1 and then with S2, the permissions of R are exactly S2 (the registry is
    the one obtained by defining R with S2 alone), and a role name has at
    most one permission set. *)
Theorem define_replaces
        (self : RBACSystem) (R : string) (S1 S2 : gset string) (user : User) :
  User.role user = R ->
  get_user_permissions (define (define self R S1) R S2) user = S2 /\
  (forall p, holds (define (define self R S1) R S2) R p <-> p ∈ S2) /\
  define (define self R S1) R S2 = define self R S2 /\
  (forall (reg : RBACSystem) (A B : gset string),
      role_permissions reg !! R = Some A ->
      role_permissions reg !! R = Some B -> A = B).
Proof.
  intros <-. unfold get_user_permissions, holds, define. simpl.
  split; [| split; [| split]].
  - rewrite lookup_insert_eq. reflexivity.
  - intros p. rewrite lookup_insert_eq. split.
    + intros (s & [= <-] & Hp). exact Hp.
    + intros Hp. eauto.
  - rewrite insert_insert_eq. reflexivity.
  - intros reg A B HA HB. congruence.
Qed.

Lemma define_replaces_witness :
  get_user_permissions
    (define (define RBACSystem_init "customer" {[ "view_products"; "place_order" ]})
            "customer" {[ "view_products" ]})
    Demo.alice
  = {[ "view_products" ]}.
Proof.
  apply (define_replaces RBACSystem_init "customer"
           {[ "view_products"; "place_order" ]} {[ "view_products" ]} Demo.alice).
  reflexivity.
Defined.

(** C9. [grant] is idempotent: granting X to R twice gives the registry
    that granting it once gives, and granting a permission that R already
    holds leaves the registry, hence R's set, unchanged. *)
Theorem grant_idempotent (self : RBACSystem) (R X : string) :
  grant (grant self R X) R X = grant self R X /\
  (holds self R X -> grant self R X = self) /\
  (forall user, User.role user = R ->
     get_user_permissions (grant self R X) user
     = get_user_permissions self user ∪ {[ X ]}) /\
  holds (grant self R X) R X.
Proof.
  unfold grant, holds, get_user_permissions. simpl.
  split; [| split; [| split]].
  - rewrite lookup_insert_eq, insert_insert_eq. simpl. f_equal. f_equal.
    rewrite <- (assoc_L (∪)), (idemp_L (∪)). reflexivity.
  - intros (s & Hs & HX). rewrite Hs. simpl.
    destruct self as [m]. simpl in *. f_equal.
    replace (s ∪ {[X]}) with s
      by (symmetry; rewrite (comm_L (∪)); apply subseteq_union_1_L, singleton_subseteq_l, HX).
    apply insert_id. exact Hs.
  - intros user <-. rewrite lookup_insert_eq. reflexivity.
  - eexists. rewrite lookup_insert_eq. split; [reflexivity |].
    apply elem_of_union_r, elem_of_singleton_2. reflexivity.
Qed.

Lemma grant_idempotent_witness :
  grant RBACSystem_init "customer" "view_products" = RBACSystem_init.
Proof.
  apply (proj1 (proj2 (grant_idempotent RBACSystem_init "customer" "view_products"))).
  apply holdsb_holds. vm_compute. reflexivity.
Defined.

(** ** Runs of programs that call collaborators *)

Lemma exec_inv {R : Type} (t : itree extE R) tr r :
  exec t tr r ->
  match observe t with
  | RetF r' => tr = [] /\ r = r'
  | TauF u => exec u tr r
  | VisF e k => exists x tr', tr = Call e x :: tr' /\ exec (k x) tr' r
  end.
Proof.
  intros H. destruct H as [t r H | t u tr r H Hu | t X e k x tr r H Hk]; rewrite H.
  - split; reflexivity.
  - exact Hu.
  - exists x, tr. split; [reflexivity | exact Hk].
Qed.

(** A run of [t >>= k] is a run of [t] followed by a run of [k]. *)
Lemma exec_bind_inv {A B : Type} (k : A -> itree extE B) u tr r :
  exec u tr r ->
  forall t, observe u = observe (ITree.bind t k) ->
  exists tr1 a tr2, exec t tr1 a /\ exec (k a) tr2 r /\ tr = (tr1 ++ tr2)%list.
Proof.
  induction 1 as [u r Hu | u u' tr r Hu Hex IH | u X e h x tr r Hu Hex IH];
    intros t Ht; rewrite observe_bind in Ht; rewrite Hu in Ht;
    destruct (observe t) as [a | t0 | Y e0 h0] eqn:Et; cbn in Ht; try discriminate.
  - exists [], a, []. split; [apply exec_ret; exact Et |].
    split; [apply exec_ret; symmetry; exact Ht | reflexivity].
  - exists [], a, tr. split; [apply exec_ret; exact Et |].
    split; [eapply exec_tau; [symmetry; exact Ht | exact Hex] | reflexivity].
  - injection Ht as ->.
    destruct (IH t0 eq_refl) as (tr1 & a & tr2 & H1 & H2 & ->).
    exists tr1, a, tr2. split; [eapply exec_tau; eassumption |].
    split; [exact H2 | reflexivity].
  - exists [], a, (Call e x :: tr). split; [apply exec_ret; exact Et |].
    split; [eapply exec_vis; [symmetry; exact Ht | exact Hex] | reflexivity].
  - apply eq_inv_VisF_weak in Ht. destruct Ht as [<- [<- ->]].
    destruct (IH (h0 x) eq_refl) as (tr1 & a & tr2 & H1 & H2 & ->).
    exists (Call e x :: tr1), a, tr2. split; [eapply exec_vis; eassumption |].
    split; [exact H2 | reflexivity].
Qed.

Ltac exec_step H := apply exec_inv in H; cbn in H.

Lemma vector_search_gate self user query top_k :
  ECommerceSystem.vector_search self user query top_k =
  if holdsb (ECommerceSystem.rbac self) (User.role user) "vector_search_basic"
     || holdsb (ECommerceSystem.rbac self) (User.role user) "vector_search_advanced"
  then ITree.bind (ECommerceSystem.vector_search_try self user query top_k)
                  ECommerceSystem.vector_search_except
  else Ret ECommerceSystem.search_denied.
Proof.
  unfold ECommerceSystem.vector_search. rewrite !has_permission_holdsb. simpl.
  destruct (holdsb _ _ "vector_search_basic"); simpl; [reflexivity |].
  destruct (holdsb _ _ "vector_search_advanced"); reflexivity.
Qed.

(** Every run of the [try] block calls the encoder on the query, and its
    outcome is never a one-line message. *)
Lemma vector_search_try_runs self user query top_k tr x :
  exec (ECommerceSystem.vector_search_try self user query top_k) tr x ->
  (exists a, Call (Encode query) a ∈ tr) /\ forall s, x <> Return [inl s].
Proof.
  intros H. unfold ECommerceSystem.vector_search_try in H.
  exec_step H. destruct H as (x1 & tr1 & -> & H).
  exec_step H. destruct H as (x2 & tr2 & -> & H).
  exec_step H. destruct H as (emb & tr3 & -> & H).
  split.
  { exists emb. do 2 (apply elem_of_cons; right). apply elem_of_cons. left. reflexivity. }
  intros s. destruct emb as [query_embedding | e].
  2: { exec_step H. destruct H as [_ ->]. discriminate. }
  exec_step H. destruct H as (x4 & tr4 & -> & H).
  exec_step H. destruct H as (x5 & tr5 & -> & H).
  exec_step H. destruct H as (resp & tr6 & -> & H).
  destruct resp as [results | e].
  2: { exec_step H. destruct H as [_ ->]. discriminate. }
  exec_step H. destruct H as (x7 & tr7 & -> & H).
  destruct (matches results) as [| m ms].
  { exec_step H. destruct H as (x8 & tr8 & -> & H).
    exec_step H. destruct H as [_ ->]. discriminate. }
  destruct (result_map ECommerceSystem.format_match (m :: ms))
    as [formatted_results | e].
  2: { exec_step H. destruct H as [_ ->]. discriminate. }
  exec_step H. destruct H as (x9 & tr9 & -> & H).
  apply exec_bind_inv
    with (t := ECommerceSystem.print_results 1 formatted_results)
         (k := fun _ : unit =>
                 Ret (Return (inr <$> formatted_results)
                      : result (list (string + SearchResult)))) in H;
    [| reflexivity].
  destruct H as (tr10 & a & tr11 & _ & H & ->).
  exec_step H. destruct H as [_ ->].
  destruct formatted_results; discriminate.
Qed.

(** Every run of a search that passed the permission test calls the
    encoder on the query and returns something other than the denial. *)
Lemma vector_search_permitted_runs self user query top_k tr r :
  exec (ITree.bind (ECommerceSystem.vector_search_try self user query top_k)
                   ECommerceSystem.vector_search_except) tr r ->
  r <> ECommerceSystem.search_denied /\
  exists c, c ∈ tr /\ is_collaborator_call c = true /\
            exists a, c = Call (Encode query) a.
Proof.
  intros H.
  apply exec_bind_inv
    with (t := ECommerceSystem.vector_search_try self user query top_k)
         (k := ECommerceSystem.vector_search_except) in H; [| reflexivity].
  destruct H as (tr1 & x & tr2 & Htry & Hexc & ->).
  apply vector_search_try_runs in Htry as [[a Ha] Hx]. split.
  - destruct x as [v | e]; exec_step Hexc.
    + destruct Hexc as [_ ->]. apply Hx.
    + destruct Hexc as (x1 & tr' & _ & Hexc). exec_step Hexc.
      destruct Hexc as [_ ->]. discriminate.
  - exists (Call (Encode query) a). split; [apply elem_of_app; left; exact Ha |].
    split; [reflexivity | eauto].
Qed.

(** C3. [vector_search] enters its [try] block (whose first statement
    prints the banner) exactly when the user's role holds
    vector_search_basic or vector_search_advanced, and returns the denial
    without doing anything exactly when it holds neither, whatever else the
    role holds.  A search that is let through goes ahead: every run calls
    the encoder on the query and returns something other than the denial;
    holding vector_search_basic is enough for that. *)
Theorem vector_search_either_of
        (self : ECommerceSystem) (user : User) (query : string) (top_k : Z) :
  let basic :=
    holds (ECommerceSystem.rbac self) (User.role user) "vector_search_basic" in
  let advanced :=
    holds (ECommerceSystem.rbac self) (User.role user) "vector_search_advanced" in
  let t := ECommerceSystem.vector_search self user query top_k in
  (basic \/ advanced <->
   exists k, observe t = VisF (Print (ECommerceSystem.search_banner query)) k) /\
  (~ (basic \/ advanced) <-> t = Ret ECommerceSystem.search_denied) /\
  (basic \/ advanced ->
   forall tr r, exec t tr r ->
     r <> ECommerceSystem.search_denied /\
     exists c, c ∈ tr /\ is_collaborator_call c = true /\
               exists a, c = Call (Encode query) a) /\
  (basic ->
   exists k, observe t = VisF (Print (ECommerceSystem.search_banner query)) k) /\
  (~ basic -> ~ advanced ->
   forall tr r, exec t tr r -> tr = [] /\ r = ECommerceSystem.search_denied).
Proof.
  cbv zeta. rewrite vector_search_gate.
  rewrite <- !holdsb_holds.
  destruct (holdsb _ _ "vector_search_basic") eqn:Hb;
    [| destruct (holdsb _ _ "vector_search_advanced") eqn:Ha]; simpl.
  - split; [| split; [| split; [| split]]].
    + split; [intros _; eexists; reflexivity | auto].
    + split; [intros H; exfalso; auto |].
      intros H. apply (f_equal observe) in H. discriminate.
    + intros _ tr r. apply vector_search_permitted_runs.
    + intros _. eexists. reflexivity.
    + intros H. exfalso. auto.
  - split; [| split; [| split; [| split]]].
    + split; [intros _; eexists; reflexivity | auto].
    + split; [intros H; exfalso; auto |].
      intros H. apply (f_equal observe) in H. discriminate.
    + intros _ tr r. apply vector_search_permitted_runs.
    + intros H. discriminate.
    + intros _ H. exfalso. auto.
  - split; [| split; [| split; [| split]]].
    + split; [intros [H | H]; discriminate | intros [k Hk]; discriminate].
    + split; [reflexivity | intros _ [H | H]; discriminate].
    + intros [H | H]; discriminate.
    + intros H. discriminate.
    + intros _ _ tr r H. exec_step H. exact H.
Qed.

(** C6. A request that fails the permission test of [vector_search]
    (respectively [create_vector]) is answered with the denial as a returned
    value: the program is the bare return, its only run executes no call at
    all, and in particular none to the encoder or the vector store. *)
Theorem denied_request_calls_no_collaborator :
  (forall (self : ECommerceSystem) (user : User) (query : string) (top_k : Z),
      ~ holds (ECommerceSystem.rbac self) (User.role user) "vector_search_basic" ->
      ~ holds (ECommerceSystem.rbac self) (User.role user) "vector_search_advanced" ->
      ECommerceSystem.vector_search self user query top_k
      = Ret ECommerceSystem.search_denied /\
      exec (ECommerceSystem.vector_search self user query top_k) []
           ECommerceSystem.search_denied /\
      forall tr r,
        exec (ECommerceSystem.vector_search self user query top_k) tr r ->
        tr = [] /\ r = ECommerceSystem.search_denied /\
        Forall (fun c => is_collaborator_call c = false) tr) /\
  (forall (self : VectorManagement) (user : User) (data : string)
          (metadata : gmap string pyval),
      ~ holds (VectorManagement.rbac self) (User.role user) "vector_create" ->
      VectorManagement.create_vector self user data metadata
      = Ret VectorManagement.create_denied /\
      exec (VectorManagement.create_vector self user data metadata) []
           VectorManagement.create_denied /\
      forall tr r,
        exec (VectorManagement.create_vector self user data metadata) tr r ->
        tr = [] /\ r = VectorManagement.create_denied /\
        Forall (fun c => is_collaborator_call c = false) tr).
Proof.
  split.
  - intros self user query top_k Hb Ha.
    apply holdsb_false in Hb. apply holdsb_false in Ha.
    rewrite vector_search_gate, Hb, Ha. simpl.
    split; [reflexivity |]. split; [apply exec_ret; reflexivity |].
    intros tr r H. exec_step H. destruct H as [-> ->]. auto.
  - intros self user data metadata Hc. apply holdsb_false in Hc.
    unfold VectorManagement.create_vector.
    rewrite has_permission_holdsb, Hc. simpl.
    split; [reflexivity |]. split; [apply exec_ret; reflexivity |].
    intros tr r H. exec_step H. destruct H as [-> ->]. auto.
Qed.

Lemma vector_search_either_of_witness :
  (exists k,
      observe (ECommerceSystem.vector_search (Demo.system 0) Demo.alice "4K display" 2)
      = VisF (Print (ECommerceSystem.search_banner "4K display")) k) /\
  (forall tr r,
      exec (ECommerceSystem.vector_search (Demo.system 0) Demo.alice "4K display" 2)
           tr r ->
      r <> ECommerceSystem.search_denied /\
      exists c, c ∈ tr /\ is_collaborator_call c = true /\
                exists a, c = Call (Encode "4K display") a) /\
  (forall tr r,
      exec (ECommerceSystem.vector_search Demo.system_updated Demo.bob_promoted
                                          "4K display" 2) tr r ->
      tr = [] /\ r = ECommerceSystem.search_denied).
Proof.
  assert (Hbasic : holds (ECommerceSystem.rbac (Demo.system 0)) (User.role Demo.alice)
                         "vector_search_basic")
    by (apply holdsb_holds; vm_compute; reflexivity).
  pose proof (vector_search_either_of (Demo.system 0) Demo.alice "4K display" 2)
    as (_ & _ & Hruns & Hgo & _).
  pose proof (vector_search_either_of Demo.system_updated Demo.bob_promoted
                                      "4K display" 2)
    as (_ & _ & _ & _ & Hdenied).
  split; [exact (Hgo Hbasic) |]. split; [exact (Hruns (or_introl Hbasic)) |].
  apply Hdenied; apply holdsb_false; vm_compute; reflexivity.
Defined.

Lemma denied_request_calls_no_collaborator_witness :
  ECommerceSystem.vector_search Demo.system_updated Demo.bob_promoted "4K display" 2
  = Ret ECommerceSystem.search_denied /\
  VectorManagement.create_vector Demo.vector_mgmt Demo.alice
    "New gaming monitor with 4K resolution" Demo.monitor_metadata
  = Ret VectorManagement.create_denied.
Proof.
  split.
  - apply (proj1 denied_request_calls_no_collaborator
                 Demo.system_updated Demo.bob_promoted "4K display" 2).
    + apply holdsb_false. vm_compute. reflexivity.
    + apply holdsb_false. vm_compute. reflexivity.
  - apply (proj2 denied_request_calls_no_collaborator
                 Demo.vector_mgmt Demo.alice "New gaming monitor with 4K resolution"
                 Demo.monitor_metadata).
    apply holdsb_false. vm_compute. reflexivity.
Defined.

Lemma exec_intro {R : Type} (t : itree extE R) tr r :
  match observe t with
  | RetF r' => tr = [] /\ r = r'
  | TauF u => exec u tr r
  | VisF e k => exists x tr', tr = Call e x :: tr' /\ exec (k x) tr' r
  end ->
  exec t tr r.
Proof.
  destruct (observe t) as [r' | u | X e k] eqn:E.
  - intros [-> ->]. apply exec_ret. exact E.
  - intros H. eapply exec_tau; eassumption.
  - intros (x & tr' & -> & H). eapply exec_vis; eassumption.
Qed.

Ltac exec_run :=
  repeat (apply exec_intro; cbn;
          first [ split; reflexivity
                | eexists _, _; split; [reflexivity |] ]).

Example demo_search_encoder_fails :
  exec (ECommerceSystem.vector_search (Demo.system 0) Demo.alice "4K display" 2)
       [ Call (Print (ECommerceSystem.search_banner "4K display")) tt;
         Call (Print [Lit "User: "; Lit "alice"; Lit " ("; Lit "customer"; Lit ")"]) tt;
         Call (Encode "4K display") (Raise (Exception "quota exceeded"));
         Call (Print [Lit nl; Lit "✗ ";
                      Lit "Error performing vector search: quota exceeded"]) tt ]
       (Return [inl "Error performing vector search: quota exceeded"]).
Proof.
  rewrite vector_search_gate.
  replace (holdsb _ _ "vector_search_basic") with true by (vm_compute; reflexivity).
  simpl. exec_run.
Qed.

#[warnings="-inexact-float"] Example demo_search_one_match :
  exec (ECommerceSystem.vector_search (Demo.system 0) Demo.alice "4K display" 2)
       [ Call (Print (ECommerceSystem.search_banner "4K display")) tt;
         Call (Print [Lit "User: "; Lit "alice"; Lit " ("; Lit "customer"; Lit ")"]) tt;
         Call (Encode "4K display") (Return [0.25%float; 0.5%float]);
         Call (Print [Lit "Searching for: "; Lit "4K display"]) tt;
         Call (Print [Lit "Query embedding dimension: "; FInt 2]) tt;
         Call (Query "products" [0.25%float; 0.5%float] 2 true)
              (Return {| matches := [Demo.monitor_match] |});
         Call (Print [Lit nl; Lit "Search response: ";
                      FResponse {| matches := [Demo.monitor_match] |}]) tt;
         Call (Print [Lit nl; Lit "Found "; FInt 1; Lit " matching products:"]) tt;
         Call (Print [Lit nl; FInt 1; Lit ". "; FVal (PStr "Gaming Monitor")]) tt;
         Call (Print [Lit "   Similarity Score: "; FFloat4 0.75%float]) tt;
         Call (Print [Lit "   Price: $"; FVal (PFloat 399.99%float)]) tt ]
       (Return [inr (SearchResult.mk (PStr "Gaming Monitor") (PFloat 399.99%float)
                       (PStr "New gaming monitor with 4K resolution") 0.75%float "v-1")]).
Proof.
  rewrite vector_search_gate.
  replace (holdsb _ _ "vector_search_basic") with true by (vm_compute; reflexivity).
  simpl. exec_run.
Qed.

Example demo_create_vector_run :
  exec (VectorManagement.create_vector
          (VectorManagement.mk Demo.rbac_updated products_index) Demo.carol_promoted
          "New gaming monitor with 4K resolution" Demo.monitor_metadata)
       [ Call Uuid4 "v-2";
         Call (Encode "New gaming monitor with 4K resolution") (Return [0.5%float]);
         Call (Upsert "products" [("v-2", [0.5%float], Demo.monitor_metadata)])
              (Return tt) ]
       (Return "Vector created successfully with ID: v-2").
Proof.
  unfold VectorManagement.create_vector. rewrite has_permission_holdsb.
  replace (holdsb _ _ "vector_create") with true by (vm_compute; reflexivity).
  simpl. exec_run.
Qed.

(** * Further properties *)

(** ** Dicts built from lists *)

Section dict_of_list_facts.
Context {K V : Type} `{EqDecision K} (key_of : V -> K).
Implicit Types (d : list (K * V)) (l : list V) (k : K).

Lemma dict_of_list_snoc l x :
  dict_of_list key_of (l ++ [x])%list = dict_set (dict_of_list key_of l) (key_of x) x.
Proof. unfold dict_of_list. rewrite foldl_app. reflexivity. Qed.

Lemma dict_set_keys d k v :
  (dict_set d k v).*1 = if dict_mem d k then d.*1 else (d.*1 ++ [k])%list.
Proof.
  unfold dict_mem. induction d as [|[k' v'] d IH]; [reflexivity |].
  cbn [dict_set dict_get].
  destruct (decide (k' = k)) as [->|Hne]; [reflexivity |].
  rewrite !fmap_cons, IH. destruct (dict_get d k); reflexivity.
Qed.

Lemma dict_get_Some_key d k v : dict_get d k = Some v -> k ∈ d.*1.
Proof.
  induction d as [|[k' v'] d IH]; simpl; [discriminate |].
  destruct (decide (k' = k)) as [->|Hne].
  - intros _. apply elem_of_cons. left. reflexivity.
  - intros H. apply elem_of_cons. right. apply IH. exact H.
Qed.

Lemma dict_get_None_key d k : dict_get d k = None -> k ∉ d.*1.
Proof.
  induction d as [|[k' v'] d IH]; simpl.
  - intros _. apply not_elem_of_nil.
  - destruct (decide (k' = k)) as [->|Hne]; [discriminate |].
    intros H. apply not_elem_of_cons. split; [congruence | apply IH; exact H].
Qed.

Lemma dict_set_fresh d k v : dict_get d k = None -> dict_set d k v = (d ++ [(k, v)])%list.
Proof.
  induction d as [|[k' v'] d IH]; simpl; [reflexivity |].
  destruct (decide (k' = k)) as [->|Hne]; [discriminate |].
  intros H. rewrite IH by exact H. reflexivity.
Qed.

Lemma dict_of_list_get l k :
  dict_get (dict_of_list key_of l) k = last_with_key key_of k l.
Proof.
  unfold last_with_key. induction l as [|x l IH] using rev_ind; [reflexivity |].
  rewrite dict_of_list_snoc, filter_app.
  destruct (decide (key_of x = k)) as [<-|Hne].
  - rewrite dict_get_set_eq, filter_cons_True by reflexivity.
    rewrite filter_nil, last_snoc. reflexivity.
  - rewrite dict_get_set_ne by exact Hne.
    rewrite filter_cons_False by exact Hne. rewrite filter_nil, app_nil_r. exact IH.
Qed.

Lemma dict_of_list_keys_NoDup l : NoDup (dict_of_list key_of l).*1.
Proof.
  induction l as [|x l IH] using rev_ind; [constructor |].
  rewrite dict_of_list_snoc, dict_set_keys. unfold dict_mem.
  destruct (dict_get (dict_of_list key_of l) (key_of x)) eqn:E; [exact IH |].
  apply NoDup_app. split; [exact IH |]. split; [| apply NoDup_singleton].
  intros k Hk Hin. apply list_elem_of_singleton in Hin. subst k.
  exact (dict_get_None_key _ _ E Hk).
Qed.

Lemma dict_set_keyed d k v :
  Forall (fun kv => key_of kv.2 = kv.1) d -> key_of v = k ->
  Forall (fun kv => key_of kv.2 = kv.1) (dict_set d k v).
Proof.
  intros Hd Hv. induction Hd as [|[k' v'] d Hkv Hd IH]; simpl.
  - constructor; [exact Hv | constructor].
  - destruct (decide (k' = k)) as [->|Hne]; constructor; auto.
Qed.

Lemma dict_of_list_keyed l :
  Forall (fun kv => key_of kv.2 = kv.1) (dict_of_list key_of l).
Proof.
  induction l as [|x l IH] using rev_ind; [constructor |].
  rewrite dict_of_list_snoc. apply dict_set_keyed; [exact IH | reflexivity].
Qed.

Lemma dict_of_list_distinct l :
  NoDup (key_of <$> l) -> dict_of_list key_of l = (fun x => (key_of x, x)) <$> l.
Proof.
  induction l as [|x l IH] using rev_ind; [reflexivity |].
  rewrite fmap_app. intros Hnd. apply NoDup_app in Hnd as (Hl & Hx & _).
  rewrite dict_of_list_snoc, IH by exact Hl. rewrite fmap_app. simpl.
  apply dict_set_fresh.
  destruct (dict_get _ (key_of x)) as [v|] eqn:E; [| reflexivity].
  exfalso. apply dict_get_Some_key in E.
  rewrite <- list_fmap_compose in E. simpl in E.
  apply (Hx (key_of x)); [exact E |]. apply elem_of_cons. left. reflexivity.
Qed.
End dict_of_list_facts.

(** ** Comprehensions that may raise *)

Lemma result_map_Return {A B : Type} (f : A -> result B) l ys :
  result_map f l = Return ys -> Forall2 (fun x y => f x = Return y) l ys.
Proof.
  revert ys. induction l as [|x l IH]; intros ys; simpl.
  - intros [= <-]. constructor.
  - destruct (f x) as [y|e] eqn:Ex; simpl; [| discriminate].
    destruct (result_map f l) as [ys'|e] eqn:El; simpl; [| discriminate].
    intros [= <-]. constructor; [exact Ex | apply IH; reflexivity].
Qed.

Lemma result_map_Raise {A B : Type} (f : A -> result B) l e :
  result_map f l = Raise e -> exists x, x ∈ l /\ f x = Raise e.
Proof.
  induction l as [|x l IH]; simpl; [discriminate |].
  destruct (f x) as [y|e'] eqn:Ex; simpl.
  - destruct (result_map f l) as [ys'|e'] eqn:El; simpl; [discriminate |].
    intros [= <-]. destruct (IH eq_refl) as (x' & Hin & Hx').
    exists x'. split; [apply elem_of_cons; right; exact Hin | exact Hx'].
  - intros [= <-]. exists x. split; [apply elem_of_cons; left; reflexivity | exact Ex].
Qed.

Lemma result_map_all {A B : Type} (f : A -> result B) l :
  Forall (fun x => exists y, f x = Return y) l -> exists ys, result_map f l = Return ys.
Proof.
  induction 1 as [|x l [y Hy] _ [ys Hys]]; simpl.
  - exists []. reflexivity.
  - exists (y :: ys). rewrite Hy, Hys. reflexivity.
Qed.

(** ** Order views *)

Lemma order_view_Return self order v :
  ECommerceSystem.order_view self order = Return v -> view_of self order v.
Proof.
  unfold ECommerceSystem.order_view, view_of, names_of.
  destruct (result_map _ (Order.products order)) as [names|e] eqn:E; simpl;
    [| discriminate].
  intros [= <-]. simpl. repeat split.
  apply result_map_Return in E.
  eapply Forall2_impl; [exact E |].
  intros pid n. simpl. unfold getitem_int.
  destruct (dict_get _ pid) as [p|]; simpl; [| discriminate].
  intros [= <-]. eauto.
Qed.

Lemma order_view_Raise self order e :
  ECommerceSystem.order_view self order = Raise e ->
  exists pid, pid ∈ Order.products order /\
              dict_get (ECommerceSystem.products self) pid = None /\
              e = KeyError (KInt pid).
Proof.
  unfold ECommerceSystem.order_view.
  destruct (result_map _ (Order.products order)) as [names|e'] eqn:E; simpl;
    [discriminate |].
  intros [= <-]. apply result_map_Raise in E as (pid & Hin & Hpid).
  exists pid. split; [exact Hin |]. unfold getitem_int in Hpid.
  destruct (dict_get _ pid) as [p|]; simpl in Hpid; [discriminate |].
  injection Hpid as <-. auto.
Qed.

Lemma order_view_Return_resolved self order v :
  ECommerceSystem.order_view self order = Return v -> products_resolved self order.
Proof.
  intros H. apply order_view_Return in H as (_ & _ & _ & Hn).
  unfold products_resolved, names_of in *.
  induction Hn as [|pid n pids ns (p & Hp & _) _ IH]; constructor; [| exact IH].
  apply dict_mem_true. eauto.
Qed.

(** X1. Whatever single-order details view_orders returns are those of the
    order stored under the requested id, and the caller either holds
    view_all_orders, or holds view_own_orders and the order's user_id is
    the caller's id: details of another principal's order are never
    returned to a caller without view_all_orders. *)
Theorem view_orders_details_sound
        (self : ECommerceSystem) (user : User) (order_id : Z) (v : OrderView) :
  ECommerceSystem.view_orders self user (Some order_id) = Return [inr v] ->
  exists order,
    dict_get (ECommerceSystem.orders self) order_id = Some order /\
    view_of self order v /\
    (holds (ECommerceSystem.rbac self) (User.role user) "view_all_orders" \/
     holds (ECommerceSystem.rbac self) (User.role user) "view_own_orders" /\
     Order.user_id order = User.id user).
Proof.
  rewrite view_orders_single. cbv zeta.
  destruct (holdsb _ _ "view_all_orders") eqn:Hall;
    destruct (holdsb _ _ "view_own_orders") eqn:Hown; simpl; try discriminate;
    (destruct (dict_get _ order_id) as [order|]; [| discriminate]).
  1,2: destruct (ECommerceSystem.order_view self order) as [v'|e] eqn:Ev; simpl;
       [| discriminate]; intros [= <-]; exists order;
       split; [reflexivity |]; split; [exact (order_view_Return _ _ _ Ev) |];
       left; apply holdsb_holds; exact Hall.
  case_bool_decide as Howner; [discriminate |].
  destruct (ECommerceSystem.order_view self order) as [v'|e] eqn:Ev; simpl;
    [| discriminate].
  intros [= <-]. exists order. split; [reflexivity |].
  split; [exact (order_view_Return _ _ _ Ev) |].
  right. split; [apply holdsb_holds; exact Hown |].
  destruct (decide (Order.user_id order = User.id user)); [assumption | contradiction].
Qed.

Lemma view_orders_details_sound_witness :
  exists order,
    dict_get (ECommerceSystem.orders (Demo.system 0)) 1 = Some order /\
    view_of (Demo.system 0) order
      (OrderView.mk 1 (Order.total (Demo.order1 0)) "pending"
                    ["Gaming Laptop"; "Wireless Headphones"]) /\
    (holds (ECommerceSystem.rbac (Demo.system 0)) (User.role Demo.alice)
           "view_all_orders" \/
     holds (ECommerceSystem.rbac (Demo.system 0)) (User.role Demo.alice)
           "view_own_orders" /\
     Order.user_id order = User.id Demo.alice).
Proof.
  apply (view_orders_details_sound (Demo.system 0) Demo.alice 1).
  vm_compute. reflexivity.
Defined.

(** [view_orders] without an order id, branch by branch. *)
Lemma view_orders_listing self user :
  ECommerceSystem.view_orders self user None =
  if negb (holdsb (ECommerceSystem.rbac self) (User.role user) "view_all_orders"
           || holdsb (ECommerceSystem.rbac self) (User.role user) "view_own_orders")
  then orders_gate_denied
  else let* vs := result_map (ECommerceSystem.order_view self) (visible_orders self user) in
       Return (inr <$> vs).
Proof.
  unfold ECommerceSystem.view_orders, visible_orders.
  rewrite !has_permission_holdsb. simpl.
  destruct (holdsb _ _ "view_all_orders"); simpl; [reflexivity |].
  destruct (holdsb _ _ "view_own_orders"); reflexivity.
Qed.

(** X2. Listing orders (view_orders without order_id) by a caller holding
    view_all_orders or view_own_orders: with view_all_orders the orders
    shown are all stored orders, otherwise exactly the stored orders whose
    user_id is the caller's id; a returned list has one entry per shown
    order, in store order, with that order's id, total, status and product
    names; and the listing returns whenever every product id of the shown
    orders is a key of the product store. *)
Theorem view_orders_lists_visible_orders (self : ECommerceSystem) (user : User) :
  holds (ECommerceSystem.rbac self) (User.role user) "view_all_orders" \/
  holds (ECommerceSystem.rbac self) (User.role user) "view_own_orders" ->
  (holds (ECommerceSystem.rbac self) (User.role user) "view_all_orders" ->
   visible_orders self user = dict_values (ECommerceSystem.orders self)) /\
  (~ holds (ECommerceSystem.rbac self) (User.role user) "view_all_orders" ->
   forall o, o ∈ visible_orders self user <->
             o ∈ dict_values (ECommerceSystem.orders self) /\
             Order.user_id o = User.id user) /\
  (forall l, ECommerceSystem.view_orders self user None = Return l ->
     exists vs, l = inr <$> vs /\ Forall2 (view_of self) (visible_orders self user) vs) /\
  (Forall (products_resolved self) (visible_orders self user) ->
   exists vs, ECommerceSystem.view_orders self user None = Return (inr <$> vs)).
Proof.
  intros Hgate.
  assert (Hg : holdsb (ECommerceSystem.rbac self) (User.role user) "view_all_orders"
               || holdsb (ECommerceSystem.rbac self) (User.role user) "view_own_orders"
               = true).
  { destruct Hgate as [H|H]; apply holdsb_holds in H; rewrite H;
      [reflexivity | apply orb_true_r]. }
  rewrite view_orders_listing, Hg. simpl.
  split; [| split; [| split]].
  - intros Hall. apply holdsb_holds in Hall. unfold visible_orders. rewrite Hall.
    reflexivity.
  - intros Hall. apply holdsb_false in Hall. unfold visible_orders. rewrite Hall.
    intros o. rewrite list_elem_of_filter. tauto.
  - intros l.
    destruct (result_map _ (visible_orders self user)) as [vs|e] eqn:E; simpl;
      [| discriminate].
    intros [= <-]. exists vs. split; [reflexivity |].
    apply result_map_Return in E.
    eapply Forall2_impl; [exact E |]. intros o v. apply order_view_Return.
  - intros Hres.
    destruct (result_map_all (ECommerceSystem.order_view self) (visible_orders self user))
      as [vs Hvs].
    + eapply Forall_impl; [exact Hres |]. intros o Ho.
      destruct (order_view_resolved self o Ho) as (names & _ & Hv). eauto.
    + exists vs. rewrite Hvs. reflexivity.
Qed.

(** X3. Listing orders raises nothing but KeyError, for a product id of a
    shown order that is missing from the product store; and for a caller
    past the permission gate it does raise whenever some shown order has
    such a product id. Orders the caller is not shown never make the
    listing fail. *)
Theorem view_orders_listing_raises_on_unresolved_product
        (self : ECommerceSystem) (user : User) :
  (forall e, ECommerceSystem.view_orders self user None = Raise e ->
     exists o pid,
       o ∈ visible_orders self user /\ pid ∈ Order.products o /\
       dict_get (ECommerceSystem.products self) pid = None /\
       e = KeyError (KInt pid)) /\
  (holds (ECommerceSystem.rbac self) (User.role user) "view_all_orders" \/
   holds (ECommerceSystem.rbac self) (User.role user) "view_own_orders" ->
   ~ Forall (products_resolved self) (visible_orders self user) ->
   exists e, ECommerceSystem.view_orders self user None = Raise e).
Proof.
  rewrite view_orders_listing. split.
  - intros e. destruct (negb _); [discriminate |].
    destruct (result_map _ (visible_orders self user)) as [vs|e'] eqn:E; simpl;
      [discriminate |].
    intros [= <-]. apply result_map_Raise in E as (o & Hin & Ho).
    apply order_view_Raise in Ho as (pid & Hpid & Hnone & ->).
    exists o, pid. auto.
  - intros Hgate Hnot.
    replace (holdsb _ _ "view_all_orders" || holdsb _ _ "view_own_orders") with true.
    2: { symmetry. destruct Hgate as [H|H]; apply holdsb_holds in H; rewrite H;
         [reflexivity | apply orb_true_r]. }
    simpl.
    destruct (result_map _ (visible_orders self user)) as [vs|e] eqn:E; simpl;
      [| eauto].
    exfalso. apply Hnot. clear Hnot. apply result_map_Return in E.
    revert E. generalize (visible_orders self user). intros os E.
    induction E as [|o v os vs' Hov _ IH]; constructor; [| exact IH].
    exact (order_view_Return_resolved _ _ _ Hov).
Qed.

Lemma view_orders_lists_visible_orders_witness :
  visible_orders (Demo.system 0) Demo.bob
  = dict_values (ECommerceSystem.orders (Demo.system 0)) /\
  (forall o, o ∈ visible_orders (Demo.system 0) Demo.erin <->
             o ∈ dict_values (ECommerceSystem.orders (Demo.system 0)) /\
             Order.user_id o = User.id Demo.erin) /\
  (exists vs, ECommerceSystem.view_orders (Demo.system 0) Demo.alice None
              = Return (inr <$> vs)).
Proof.
  assert (Hbob : holds (ECommerceSystem.rbac (Demo.system 0)) (User.role Demo.bob)
                       "view_all_orders")
    by (apply holdsb_holds; vm_compute; reflexivity).
  assert (Hown : forall u, User.role u = "customer" ->
                   holds (ECommerceSystem.rbac (Demo.system 0)) (User.role u)
                         "view_own_orders")
    by (intros u ->; apply holdsb_holds; vm_compute; reflexivity).
  split; [| split].
  - exact (proj1 (view_orders_lists_visible_orders (Demo.system 0) Demo.bob
                    (or_introl Hbob)) Hbob).
  - apply (proj1 (proj2 (view_orders_lists_visible_orders (Demo.system 0) Demo.erin
                           (or_intror (Hown Demo.erin eq_refl))))).
    apply holdsb_false. vm_compute. reflexivity.
  - apply (proj2 (proj2 (proj2 (view_orders_lists_visible_orders
                                  (Demo.system 0) Demo.alice
                                  (or_intror (Hown Demo.alice eq_refl)))))).
    vm_compute. repeat constructor.
Defined.

Lemma view_orders_listing_raises_on_unresolved_product_witness :
  (exists o pid,
      o ∈ visible_orders Demo.stray_system Demo.david /\ pid ∈ Order.products o /\
      dict_get (ECommerceSystem.products Demo.stray_system) pid = None /\
      KeyError (KInt 4) = KeyError (KInt pid)) /\
  (exists e, ECommerceSystem.view_orders Demo.stray_system Demo.david None = Raise e).
Proof.
  pose proof (view_orders_listing_raises_on_unresolved_product
                Demo.stray_system Demo.david) as [Hkey Hraise].
  split.
  - apply Hkey. vm_compute. reflexivity.
  - apply Hraise.
    + left. apply holdsb_holds. vm_compute. reflexivity.
    + intros H. vm_compute in H.
      inversion H as [|? ? Horder _]. inversion Horder as [|? ? Hpid _].
      discriminate Hpid.
Defined.

(** ** Constructors and the catalogue *)

(** X4. The constructors key their dicts by id: in a system built from
    lists, looking up an id gives the last object of the list with that id
    (nothing if there is none), keys are distinct, a found order or
    product has the requested id and comes from the list, and
    InventoryManagement and ECommerceSystem built from the same products
    hold the same product dict. *)
Theorem init_stores_last_object_per_id
        (rbac : RBACSystem) (users : list User) (products : list Product)
        (orders : list Order) :
  let sys := ECommerceSystem.init rbac users products orders in
  let inv := InventoryManagement.init rbac products in
  (forall k, dict_get (ECommerceSystem.users sys) k = last_with_key User.id k users) /\
  (forall k, dict_get (ECommerceSystem.products sys) k
             = last_with_key Product.id k products) /\
  (forall k, dict_get (ECommerceSystem.orders sys) k
             = last_with_key Order.id k orders) /\
  InventoryManagement.products inv = ECommerceSystem.products sys /\
  NoDup (ECommerceSystem.orders sys).*1 /\
  NoDup (ECommerceSystem.products sys).*1 /\
  (forall k o, dict_get (ECommerceSystem.orders sys) k = Some o ->
               Order.id o = k /\ o ∈ orders) /\
  (forall k p, dict_get (ECommerceSystem.products sys) k = Some p ->
               Product.id p = k /\ p ∈ products).
Proof.
  cbv zeta. unfold ECommerceSystem.init, InventoryManagement.init. simpl.
  assert (Hlast : forall (V : Type) (key_of : V -> Z) (l : list V) k v,
             dict_get (dict_of_list key_of l) k = Some v -> key_of v = k /\ v ∈ l).
  { intros V key_of l k v. rewrite dict_of_list_get. unfold last_with_key.
    intros H. apply last_Some_elem_of in H. apply list_elem_of_filter in H. exact H. }
  repeat split; try (intros k; apply dict_of_list_get);
    try apply dict_of_list_keys_NoDup.
  - eapply proj1, Hlast. eassumption.
  - eapply proj2, Hlast. eassumption.
  - eapply proj1, Hlast. eassumption.
  - eapply proj2, Hlast. eassumption.
Qed.

Lemma init_stores_last_object_per_id_witness :
  Order.id (Demo.order2 0) = 2 /\ Demo.order2 0 ∈ Demo.orders 0.
Proof.
  apply (proj1 (proj2 (proj2 (proj2 (proj2 (proj2 (proj2
           (init_stores_last_object_per_id Demo.rbac Demo.users Demo.products
                                           (Demo.orders 0)))))))) 2 (Demo.order2 0)).
  reflexivity.
Defined.

Lemma view_products_cases self user :
  ECommerceSystem.view_products self user =
  if holdsb (ECommerceSystem.rbac self) (User.role user) "view_products"
  then Return (product_entry <$> dict_values (ECommerceSystem.products self))
  else Return [inl "Access Denied: No permission to view products"].
Proof.
  unfold ECommerceSystem.view_products. rewrite has_permission_holdsb. simpl.
  destruct (holdsb _ _ _); reflexivity.
Qed.

(** X5. view_products on a system built by the constructor returns the
    denial without view_products; with it, one entry (id, name, price,
    stock) per distinct product id, taken from the last product of the
    list with that id, and when the product ids of the list are distinct
    exactly the products of the list, in list order. *)
Theorem view_products_lists_catalogue
        (rbac : RBACSystem) (users : list User) (products : list Product)
        (orders : list Order) (user : User) :
  let sys := ECommerceSystem.init rbac users products orders in
  (~ holds rbac (User.role user) "view_products" ->
   ECommerceSystem.view_products sys user
   = Return [inl "Access Denied: No permission to view products"]) /\
  (holds rbac (User.role user) "view_products" ->
   exists shown,
     ECommerceSystem.view_products sys user = Return (product_entry <$> shown) /\
     NoDup (Product.id <$> shown) /\
     (forall p, p ∈ shown <->
                exists k, last_with_key Product.id k products = Some p) /\
     (NoDup (Product.id <$> products) -> shown = products)).
Proof.
  cbv zeta. rewrite view_products_cases.
  unfold ECommerceSystem.init. simpl. split.
  - intros H. apply holdsb_false in H. rewrite H. reflexivity.
  - intros H. apply holdsb_holds in H. rewrite H.
    exists (dict_values (dict_of_list Product.id products)).
    split; [reflexivity |].
    pose proof (dict_of_list_keyed Product.id products) as Hkeyed.
    pose proof (dict_of_list_keys_NoDup Product.id products) as Hnd.
    assert (Hids : Product.id <$> dict_values (dict_of_list Product.id products)
                   = (dict_of_list Product.id products).*1).
    { unfold dict_values. rewrite <- list_fmap_compose.
      apply list_eq_Forall2, Forall2_fmap, Forall_Forall2_diag.
      exact Hkeyed. }
    split; [rewrite Hids; exact Hnd |]. split.
    + intros p. unfold dict_values. rewrite list_elem_of_fmap. split.
      * intros ([k p'] & -> & Hin). exists k. rewrite <- dict_of_list_get.
        simpl. clear Hids Hkeyed.
        induction (dict_of_list Product.id products) as [|[k0 p0] d IH];
          [apply elem_of_nil in Hin; contradiction |].
        apply NoDup_cons in Hnd as [Hk0 Hnd]. simpl.
        apply elem_of_cons in Hin as [[= -> ->] | Hin].
        -- rewrite decide_True; reflexivity.
        -- rewrite decide_False; [apply IH; assumption |].
           intros ->. apply Hk0. apply list_elem_of_fmap. exists (k, p'). auto.
      * intros [k Hk]. rewrite <- dict_of_list_get in Hk. exists (k, p).
        split; [reflexivity |]. clear Hids Hkeyed Hnd.
        induction (dict_of_list Product.id products) as [|[k0 p0] d IH];
          [discriminate |].
        simpl in Hk. destruct (decide (k0 = k)) as [->|Hne].
        -- injection Hk as ->. apply elem_of_cons. left. reflexivity.
        -- apply elem_of_cons. right. apply IH. exact Hk.
    + intros Hdistinct. rewrite dict_of_list_distinct by exact Hdistinct.
      unfold dict_values. rewrite <- list_fmap_compose. apply list_fmap_id.
Qed.

Lemma view_products_lists_catalogue_witness :
  ECommerceSystem.view_products (Demo.system 0) Demo.guest
  = Return [inl "Access Denied: No permission to view products"] /\
  ECommerceSystem.view_products (Demo.system 0) Demo.alice
  = Return (product_entry <$> Demo.products).
Proof.
  pose proof (view_products_lists_catalogue Demo.rbac Demo.users Demo.products
                (Demo.orders 0)) as H.
  split.
  - apply (proj1 (H Demo.guest)). apply holdsb_false. vm_compute. reflexivity.
  - destruct (proj2 (H Demo.alice)) as (shown & Hv & _ & _ & Hd).
    + apply holdsb_holds. vm_compute. reflexivity.
    + rewrite <- Hd; [exact Hv |].
      apply (bool_decide_unpack (NoDup (Product.id <$> Demo.products))).
      vm_compute. exact I.
Defined.

(** ** Successive stock updates *)

Section dict_set_facts.
Context {K V : Type} `{EqDecision K}.
Implicit Types (d : list (K * V)) (k : K) (v : V).

Lemma dict_set_set d k v1 v2 : dict_set (dict_set d k v1) k v2 = dict_set d k v2.
Proof.
  induction d as [|[k' v'] d IH]; simpl.
  - rewrite decide_True; reflexivity.
  - destruct (decide (k' = k)) as [->|Hne]; simpl.
    + rewrite decide_True; reflexivity.
    + rewrite decide_False by exact Hne. rewrite IH. reflexivity.
Qed.

Lemma dict_set_comm d k1 k2 v1 v2 :
  k1 <> k2 -> dict_mem d k1 = true -> dict_mem d k2 = true ->
  dict_set (dict_set d k1 v1) k2 v2 = dict_set (dict_set d k2 v2) k1 v1.
Proof.
  intros Hne. unfold dict_mem. induction d as [|[k' v'] d IH]; simpl; [discriminate |].
  destruct (decide (k' = k1)) as [E1|H1], (decide (k' = k2)) as [E2|H2];
    simpl; try congruence; intros Hk1 Hk2;
    repeat first [rewrite decide_True by assumption
                 | rewrite decide_False by assumption];
    try rewrite IH by assumption; reflexivity.
Qed.

Lemma dict_set_same d k v : dict_get d k = Some v -> dict_set d k v = d.
Proof.
  induction d as [|[k' v'] d IH]; simpl; [discriminate |].
  destruct (decide (k' = k)) as [->|Hne].
  - intros [= ->]. reflexivity.
  - intros H. rewrite IH by exact H. reflexivity.
Qed.
End dict_set_facts.

Ltac stock_step Hp :=
  rewrite !update_stock_cases; simpl; repeat (rewrite Hp; simpl).

(** X6. Successive stock updates by the same user: the last write wins
    (updating to n1 and then to n2 gives the result and the store of
    updating to n2 alone), repeating an update changes nothing more, and
    updates of two different product ids commute. *)
Theorem update_stock_last_write_wins
        (self : InventoryManagement) (user : User) (product_id n1 n2 : Z) :
  let once := InventoryManagement.update_stock self user product_id n1 in
  InventoryManagement.update_stock once.2 user product_id n2
  = InventoryManagement.update_stock self user product_id n2 /\
  InventoryManagement.update_stock once.2 user product_id n1 = once /\
  (forall q n, q <> product_id ->
     (InventoryManagement.update_stock
        (InventoryManagement.update_stock self user product_id n1).2 user q n).2
     = (InventoryManagement.update_stock
          (InventoryManagement.update_stock self user q n).2 user product_id n1).2).
Proof.
  cbv zeta.
  destruct (holdsb (InventoryManagement.rbac self) (User.role user)
                   "update_product_stock") eqn:Hp.
  2: { split; [| split]; [| | intros q n _]; stock_step Hp; reflexivity. }
  destruct (dict_get (InventoryManagement.products self) product_id) as [p|] eqn:E.
  - split; [| split]; [| | intros q n Hq]; stock_step Hp; rewrite ?E; simpl;
      rewrite ?Hp; simpl.
    + rewrite dict_get_set_eq. simpl. rewrite dict_set_set. reflexivity.
    + rewrite dict_get_set_eq. simpl. rewrite dict_set_set. reflexivity.
    + rewrite dict_get_set_ne by congruence.
      destruct (dict_get (InventoryManagement.products self) q) as [pq|] eqn:Eq; simpl;
        rewrite ?Hp; simpl.
      * rewrite dict_get_set_ne by exact Hq. rewrite E. simpl. f_equal.
        apply dict_set_comm.
        -- congruence.
        -- apply dict_mem_true. eauto.
        -- apply dict_mem_true. eauto.
      * rewrite E. reflexivity.
  - split; [| split]; [| | intros q n Hq]; stock_step Hp; rewrite ?E; simpl;
      rewrite ?Hp, ?E; simpl; try reflexivity.
    destruct (dict_get (InventoryManagement.products self) q) as [pq|] eqn:Eq; simpl;
      rewrite ?Hp; simpl.
    + rewrite dict_get_set_ne by exact Hq. rewrite E. reflexivity.
    + rewrite E. reflexivity.
Qed.

(** X7. update_stock changes nothing but a stock: the keys of the product
    store, their order, and the id, name, price, description and vector_id
    of every product are as before, the registry is untouched, and an
    update to the stock the product already has leaves the object as it
    was. *)
Theorem update_stock_preserves_catalogue
        (self : InventoryManagement) (user : User) (product_id new_stock : Z) :
  let after := (InventoryManagement.update_stock self user product_id new_stock).2 in
  (fun kv => (kv.1, product_identity kv.2)) <$> InventoryManagement.products after
  = (fun kv => (kv.1, product_identity kv.2)) <$> InventoryManagement.products self /\
  InventoryManagement.rbac after = InventoryManagement.rbac self /\
  (forall p, dict_get (InventoryManagement.products self) product_id = Some p ->
             Product.stock p = new_stock -> after = self).
Proof.
  cbv zeta. rewrite update_stock_cases.
  destruct (holdsb _ _ _); simpl; [| auto].
  destruct (dict_get (InventoryManagement.products self) product_id) as [p|] eqn:E;
    simpl; [| auto].
  split; [| split; [reflexivity |]].
  - revert E. induction (InventoryManagement.products self) as [|[k p'] d IH];
      simpl; [discriminate |].
    destruct (decide (k = product_id)) as [->|Hne].
    + intros [= ->]. reflexivity.
    + intros E. rewrite !fmap_cons, IH by exact E. reflexivity.
  - intros p0 [= <-] Hs. destruct self as [r d]. simpl in *. f_equal.
    apply dict_set_same. rewrite E. f_equal. destruct p. simpl in *. subst. reflexivity.
Qed.

Lemma update_stock_last_write_wins_witness :
  (InventoryManagement.update_stock
     (InventoryManagement.update_stock Demo.inventory Demo.david 1 45).2
     Demo.david 2 7).2
  = (InventoryManagement.update_stock
       (InventoryManagement.update_stock Demo.inventory Demo.david 2 7).2
       Demo.david 1 45).2.
Proof.
  apply (proj2 (proj2 (update_stock_last_write_wins Demo.inventory Demo.david 1 45 45))
               2 7).
  discriminate.
Defined.

Lemma update_stock_preserves_catalogue_witness :
  (InventoryManagement.update_stock Demo.inventory Demo.david 1 50).2 = Demo.inventory.
Proof.
  apply (proj2 (proj2 (update_stock_preserves_catalogue Demo.inventory Demo.david 1 50))
               Demo.laptop); reflexivity.
Defined.

(** ** The registry *)

(** X8. has_permission returns exactly whether the permission is a member
    of get_user_permissions of the same user. *)
Theorem has_permission_is_membership
        (self : RBACSystem) (user : User) (permission : string) :
  has_permission self user permission
  = Return (bool_decide (permission ∈ get_user_permissions self user)).
Proof.
  rewrite has_permission_holdsb. unfold holdsb, get_user_permissions. f_equal.
  destruct (role_permissions self !! User.role user) as [s|]; simpl; [reflexivity |].
  symmetry. apply bool_decide_eq_false_2. apply not_elem_of_empty.
Qed.

(** X9. Defining or redefining a role R changes nothing for a user whose
    role is not R: the user's permission set and every has_permission
    answer, also as a script statement followed by a check, are as before. *)
Theorem define_leaves_other_roles
        (self : RBACSystem) (R : string) (S : gset string) (user : User) :
  User.role user <> R ->
  get_user_permissions (define self R S) user = get_user_permissions self user /\
  (forall permission,
      has_permission (define self R S) user permission
      = has_permission self user permission) /\
  (forall (us : list User) (p : nat) (permission : string),
      us !! p = Some user ->
      (step (step {| rbac := self; users := us |} (Define R S)).1
            (Check p permission)).2
      = (step {| rbac := self; users := us |} (Check p permission)).2).
Proof.
  intros Hne.
  assert (Hl : role_permissions (define self R S) !! User.role user
               = role_permissions self !! User.role user).
  { unfold define. simpl. apply lookup_insert_ne. congruence. }
  assert (Hp : forall permission,
             has_permission (define self R S) user permission
             = has_permission self user permission).
  { intros permission. rewrite !has_permission_holdsb. unfold holdsb.
    rewrite Hl. reflexivity. }
  split; [| split].
  - unfold get_user_permissions. rewrite Hl. reflexivity.
  - exact Hp.
  - intros us p permission Hu. simpl. rewrite Hu. simpl. rewrite Hp. reflexivity.
Qed.

Lemma define_leaves_other_roles_witness :
  get_user_permissions Demo.rbac_updated Demo.alice
  = get_user_permissions
      (define Demo.rbac "senior_sales_rep"
         {[ "view_products"; "view_all_orders"; "update_order_status";
            "view_customer_info"; "update_product_stock" ]})
      Demo.alice.
Proof.
  apply (proj1 (define_leaves_other_roles _ "senior_data_scientist" _ Demo.alice
                  ltac:(discriminate))).
Defined.

(** X10. After a user's role is reassigned to r, that user's permission
    set is exactly the set of r (empty if r is not defined) and every
    check on that user answers as role r does, so permissions of the old
    role that r lacks are lost; the other users and the checks on them are
    unchanged. *)
Theorem promotion_replaces_permissions
        (w : world) (P : nat) (u : User) (r : string) :
  users w !! P = Some u ->
  let w' := (step w (SetRole P r)).1 in
  users w' !! P = Some (set_role r u) /\
  get_user_permissions (rbac w') (set_role r u)
  = default ∅ (role_permissions (rbac w) !! r) /\
  (forall X, (step w' (Check P X)).2 = Some (Return (holdsb (rbac w) r X))) /\
  (forall Q, Q <> P -> users w' !! Q = users w !! Q) /\
  (forall Q X, Q <> P -> (step w' (Check Q X)).2 = (step w (Check Q X)).2) /\
  length (users w') = length (users w).
Proof.
  intros Hu. cbv zeta. simpl.
  assert (HP : alter (set_role r) P (users w) !! P = Some (set_role r u)).
  { rewrite list_lookup_alter, Hu. rewrite decide_True by reflexivity. reflexivity. }
  assert (HQ : forall Q, Q <> P -> alter (set_role r) P (users w) !! Q = users w !! Q).
  { intros Q HQ. rewrite list_lookup_alter. rewrite decide_False by congruence.
    reflexivity. }
  split; [exact HP |]. split; [reflexivity |]. split; [| split; [exact HQ | split]].
  - intros X. rewrite HP. simpl. rewrite has_permission_holdsb. reflexivity.
  - intros Q X Hne. rewrite HQ by exact Hne. reflexivity.
  - apply length_alter.
Qed.

Lemma promotion_replaces_permissions_witness :
  (step (step {| rbac := Demo.rbac_updated; users := Demo.users |}
              (SetRole 1%nat "senior_sales_rep")).1
        (Check 1%nat "vector_search_basic")).2
  = Some (Return (holdsb Demo.rbac_updated "senior_sales_rep" "vector_search_basic")).
Proof.
  apply (proj1 (proj2 (proj2
           (promotion_replaces_permissions
              {| rbac := Demo.rbac_updated; users := Demo.users |} 1%nat Demo.bob
              "senior_sales_rep" eq_refl)))).
Defined.

(** X11. In the registry RBACSystem.__init__ builds, admin holds every
    permission that any role holds except view_own_orders; admin does not
    hold view_own_orders, and customer is the only role that does. *)
Theorem initial_registry_admin_holds_all_but_own_orders (r p : string) :
  (holds RBACSystem_init r p ->
   p = "view_own_orders" \/ holds RBACSystem_init "admin" p) /\
  ~ holds RBACSystem_init "admin" "view_own_orders" /\
  (holds RBACSystem_init r "view_own_orders" -> r = "customer").
Proof.
  assert (Hroles : forall s, role_permissions RBACSystem_init !! r = Some s ->
            forall q, q ∈ s ->
              (q = "view_own_orders" /\ r = "customer") \/
              (q <> "view_own_orders" /\ holdsb RBACSystem_init "admin" q = true)).
  { intros s Hs q. unfold RBACSystem_init in Hs. simpl in Hs.
    repeat (apply lookup_insert_Some in Hs as [[<- <-] | [_ Hs]];
            [clear | ]).
    5: { rewrite lookup_empty in Hs. discriminate. }
    all: rewrite !elem_of_union, !elem_of_singleton;
         intros H; repeat destruct H as [H | H]; subst q;
         first [ left; split; reflexivity
               | right; split; [discriminate | vm_compute; reflexivity] ]. }
  split; [| split].
  - intros (s & Hs & Hp). destruct (Hroles s Hs p Hp) as [[-> _] | [_ H]];
      [left; reflexivity | right; apply holdsb_holds; exact H].
  - apply holdsb_false. vm_compute. reflexivity.
  - intros (s & Hs & Hp). destruct (Hroles s Hs _ Hp) as [[_ ->] | [H _]];
      [reflexivity | contradiction].
Qed.

Lemma initial_registry_admin_holds_all_but_own_orders_witness :
  "vector_search_basic" = "view_own_orders" \/
  holds RBACSystem_init "admin" "vector_search_basic".
Proof.
  apply (proj1 (initial_registry_admin_holds_all_but_own_orders
                  "customer" "vector_search_basic")).
  apply holdsb_holds. vm_compute. reflexivity.
Defined.

(** ** Runs of [vector_search] and [create_vector] *)

Lemma collaborator_calls_app tr1 tr2 :
  collaborator_calls (tr1 ++ tr2) = (collaborator_calls tr1 ++ collaborator_calls tr2)%list.
Proof.
  induction tr1 as [|c tr1 IH]; simpl; [reflexivity |].
  destruct (is_collaborator_call c); simpl; rewrite IH; reflexivity.
Qed.

Lemma elem_of_collaborator_calls c tr :
  c ∈ tr -> is_collaborator_call c = true -> c ∈ collaborator_calls tr.
Proof.
  intros Hin Hc. induction tr as [|c' tr IH]; [exact Hin |].
  simpl. apply elem_of_cons in Hin as [<- | Hin].
  - rewrite Hc. apply elem_of_cons. left. reflexivity.
  - destruct (is_collaborator_call c'); [apply elem_of_cons; right |]; auto.
Qed.


Lemma exec_observe_eq {R : Type} (t u : itree extE R) tr r :
  observe t = observe u -> exec t tr r -> exec u tr r.
Proof.
  intros E H. destruct H as [t r H | t t' tr r H Ht | t X e k x tr r H Hk].
  - apply exec_ret. congruence.
  - eapply exec_tau; [| exact Ht]. congruence.
  - eapply exec_vis; [| exact Hk]. congruence.
Qed.

(** The loop that prints the results calls no collaborator. *)
Lemma print_results_runs l : forall idx tr x,
  exec (ECommerceSystem.print_results idx l) tr x -> collaborator_calls tr = [].
Proof.
  induction l as [|r l IH]; intros idx tr x H.
  - exec_step H. destruct H as [-> _]. reflexivity.
  - exec_step H. destruct H as (x1 & tr1 & -> & H).
    exec_step H. destruct H as (x2 & tr2 & -> & H).
    exec_step H. destruct H as (x3 & tr3 & -> & H).
    apply (exec_observe_eq _ (ECommerceSystem.print_results (idx + 1) l)) in H;
      [| reflexivity].
    simpl. exact (IH _ _ _ H).
Qed.

(** Every run of the [try] block: the collaborator calls it makes and what
    it hands to the [except] clause. *)
Lemma vector_search_try_protocol self user query top_k tr x :
  exec (ECommerceSystem.vector_search_try self user query top_k) tr x ->
  (exists e,
      collaborator_calls tr = [Call (Encode query) (Raise e)] /\ x = Raise e) \/
  (exists v e,
      collaborator_calls tr
      = [Call (Encode query) (Return v);
         Call (Query (ECommerceSystem.vector_index self) v top_k true) (Raise e)] /\
      x = Raise e) \/
  (exists v results,
      collaborator_calls tr
      = [Call (Encode query) (Return v);
         Call (Query (ECommerceSystem.vector_index self) v top_k true) (Return results)] /\
      x = match matches results with
          | [] => Return []
          | _ :: _ =>
              match result_map ECommerceSystem.format_match (matches results) with
              | Return formatted_results => Return (inr <$> formatted_results)
              | Raise e => Raise e
              end
          end).
Proof.
  intros H. unfold ECommerceSystem.vector_search_try in H.
  exec_step H. destruct H as (x1 & tr1 & -> & H).
  exec_step H. destruct H as (x2 & tr2 & -> & H).
  exec_step H. destruct H as (emb & tr3 & -> & H).
  destruct emb as [query_embedding | e].
  2: { exec_step H. destruct H as [-> ->]. left. exists e. split; reflexivity. }
  right.
  exec_step H. destruct H as (x4 & tr4 & -> & H).
  exec_step H. destruct H as (x5 & tr5 & -> & H).
  exec_step H. destruct H as (resp & tr6 & -> & H).
  destruct resp as [results | e].
  2: { exec_step H. destruct H as [-> ->]. left. exists query_embedding, e.
       split; reflexivity. }
  right. exists query_embedding, results.
  exec_step H. destruct H as (x7 & tr7 & -> & H).
  destruct (matches results) as [| m ms].
  { exec_step H. destruct H as (x8 & tr8 & -> & H).
    exec_step H. destruct H as [-> ->]. split; reflexivity. }
  destruct (result_map ECommerceSystem.format_match (m :: ms))
    as [formatted_results | e].
  2: { exec_step H. destruct H as [-> ->]. split; reflexivity. }
  exec_step H. destruct H as (x9 & tr9 & -> & H).
  apply exec_bind_inv
    with (t := ECommerceSystem.print_results 1 formatted_results)
         (k := fun _ : unit =>
                 Ret (Return (inr <$> formatted_results)
                      : result (list (string + SearchResult)))) in H;
    [| reflexivity].
  destruct H as (tr10 & a & tr11 & Hloop & H & ->).
  exec_step H. destruct H as [-> ->].
  apply print_results_runs in Hloop.
  simpl. rewrite collaborator_calls_app, Hloop. split; reflexivity.
Qed.

Lemma vector_search_cases
        (self : ECommerceSystem) (user : User) (query : string) (top_k : Z)
        (tr : list call) (r : result (list (string + SearchResult))) :
  exec (ECommerceSystem.vector_search self user query top_k) tr r ->
  (tr = [] /\ r = ECommerceSystem.search_denied) \/
  (exists e,
      collaborator_calls tr = [Call (Encode query) (Raise e)] /\
      r = search_error e) \/
  (exists v e,
      collaborator_calls tr
      = [Call (Encode query) (Return v);
         Call (Query (ECommerceSystem.vector_index self) v top_k true) (Raise e)] /\
      r = search_error e) \/
  (exists v results,
      collaborator_calls tr
      = [Call (Encode query) (Return v);
         Call (Query (ECommerceSystem.vector_index self) v top_k true) (Return results)] /\
      r = search_outcome results).
Proof.
  rewrite vector_search_gate. destruct (_ || _).
  2: { intros H. exec_step H. left. exact H. }
  intros H. right.
  apply exec_bind_inv
    with (t := ECommerceSystem.vector_search_try self user query top_k)
         (k := ECommerceSystem.vector_search_except) in H; [| reflexivity].
  destruct H as (tr1 & x & tr2 & Htry & Hexc & ->).
  rewrite collaborator_calls_app.
  assert (Hexcept : collaborator_calls tr2 = [] /\
                    r = match x with
                        | Return v => Return v
                        | Raise e => search_error e
                        end).
  { destruct x as [v | e]; exec_step Hexc.
    - destruct Hexc as [-> ->]. split; reflexivity.
    - destruct Hexc as (x1 & tr' & -> & Hexc). exec_step Hexc.
      destruct Hexc as [-> ->]. split; reflexivity. }
  destruct Hexcept as [-> ->]. rewrite app_nil_r.
  apply vector_search_try_protocol in Htry
    as [(e & Hc & ->) | [(v & e & Hc & ->) | (v & results & Hc & ->)]].
  - left. eauto.
  - right. left. eauto.
  - right. right. exists v, results. split; [exact Hc |].
    unfold search_outcome. destruct (matches results); [reflexivity |].
    destruct (result_map _ _); reflexivity.
Qed.

(** X12. Every completed run of vector_search returns a value (it never
    raises) and never calls upsert. It is either the denial with no call
    at all; or the encoder was called once, on the query, and failed (the
    error message is returned and the index is not queried); or the index
    was then queried once, with the encoder's vector, the caller's top_k
    and include_metadata=True, and failed (error message); or the index
    answered and the result is computed from its answer. *)
Theorem vector_search_runs
        (self : ECommerceSystem) (user : User) (query : string) (top_k : Z)
        (tr : list call) (r : result (list (string + SearchResult))) :
  exec (ECommerceSystem.vector_search self user query top_k) tr r ->
  (exists l, r = Return l) /\
  (forall c, c ∈ tr -> forall index vectors answer,
             c <> Call (Upsert index vectors) answer) /\
  ((tr = [] /\ r = ECommerceSystem.search_denied) \/
   (exists e,
       collaborator_calls tr = [Call (Encode query) (Raise e)] /\
       r = search_error e) \/
   (exists v e,
       collaborator_calls tr
       = [Call (Encode query) (Return v);
          Call (Query (ECommerceSystem.vector_index self) v top_k true) (Raise e)] /\
       r = search_error e) \/
   (exists v results,
       collaborator_calls tr
       = [Call (Encode query) (Return v);
          Call (Query (ECommerceSystem.vector_index self) v top_k true) (Return results)] /\
       r = search_outcome results)).
Proof.
  intros H. pose proof (vector_search_cases _ _ _ _ _ _ H) as Hcases.
  split; [| split; [| exact Hcases]].
  - destruct Hcases as [[_ ->] | [(e & _ & ->) | [(v & e & _ & ->) | (v & res & _ & ->)]]];
      try (eexists; reflexivity).
    unfold search_outcome. destruct (matches res); [eauto |].
    destruct (result_map _ _); eexists; reflexivity.
  - intros c Hc index vectors answer ->.
    apply elem_of_collaborator_calls in Hc; [| reflexivity].
    destruct Hcases
      as [[-> _] | [(e & Heq & _) | [(v & e & Heq & _) | (v & res & Heq & _)]]];
      [apply elem_of_nil in Hc; exact Hc | rewrite Heq in Hc ..];
      repeat (apply elem_of_cons in Hc as [Hc | Hc]; [discriminate Hc |]);
      apply elem_of_nil in Hc; exact Hc.
Qed.

Lemma vector_search_runs_witness :
  ([ Call (Print (ECommerceSystem.search_banner "4K display")) tt;
     Call (Print [Lit "User: "; Lit "alice"; Lit " ("; Lit "customer"; Lit ")"]) tt;
     Call (Encode "4K display") (Raise (Exception "quota exceeded"));
     Call (Print [Lit nl; Lit "✗ ";
                  Lit "Error performing vector search: quota exceeded"]) tt ] = [] /\
   Return [inl "Error performing vector search: quota exceeded"]
   = ECommerceSystem.search_denied) \/
  (exists e,
      [Call (Encode "4K display") (Raise (Exception "quota exceeded"))]
      = [Call (Encode "4K display") (Raise e)] /\
      Return [inl "Error performing vector search: quota exceeded"] = search_error e) \/
  (exists v e,
      [Call (Encode "4K display") (Raise (Exception "quota exceeded"))]
      = [Call (Encode "4K display") (Return v);
         Call (Query (ECommerceSystem.vector_index (Demo.system 0)) v 2 true) (Raise e)] /\
      Return [inl "Error performing vector search: quota exceeded"] = search_error e) \/
  (exists v results,
      [Call (Encode "4K display") (Raise (Exception "quota exceeded"))]
      = [Call (Encode "4K display") (Return v);
         Call (Query (ECommerceSystem.vector_index (Demo.system 0)) v 2 true)
              (Return results)] /\
      Return [inl "Error performing vector search: quota exceeded"]
      = search_outcome results).
Proof.
  exact (proj2 (proj2 (vector_search_runs (Demo.system 0) Demo.alice "4K display" 2 _ _
                                          demo_search_encoder_fails))).
Defined.

Lemma format_match_Return m entry :
  ECommerceSystem.format_match m = Return entry <-> entry_of m entry.
Proof.
  unfold ECommerceSystem.format_match, entry_of, getitem_str.
  destruct (Match.metadata m !! "name") as [n|]; simpl.
  2: { split; [discriminate | intros (H & _); discriminate]. }
  destruct (Match.metadata m !! "price") as [p|]; simpl.
  2: { split; [discriminate | intros (_ & H & _); discriminate]. }
  destruct (Match.metadata m !! "description") as [d|]; simpl.
  2: { split; [discriminate | intros (_ & _ & H & _); discriminate]. }
  split.
  - intros [= <-]. simpl. repeat split.
  - intros ([= ->] & [= ->] & [= ->] & Hs & Hi). destruct entry. simpl in *.
    subst. reflexivity.
Qed.

Lemma format_match_Raise m e :
  ECommerceSystem.format_match m = Raise e ->
  exists key, key ∈ ["name"; "price"; "description"] /\
              Match.metadata m !! key = None /\ e = KeyError (KStr key).
Proof.
  unfold ECommerceSystem.format_match, getitem_str.
  destruct (Match.metadata m !! "name") as [n|] eqn:En; simpl.
  2: { intros [= <-]. exists "name". split; [| auto].
       apply elem_of_cons. left. reflexivity. }
  destruct (Match.metadata m !! "price") as [p|] eqn:Ep; simpl.
  2: { intros [= <-]. exists "price". split; [| auto].
       apply elem_of_cons. right. apply elem_of_cons. left. reflexivity. }
  destruct (Match.metadata m !! "description") as [d|] eqn:Ed; simpl; [discriminate |].
  intros [= <-]. exists "description". split; [| auto].
  do 2 (apply elem_of_cons; right). apply elem_of_cons. left. reflexivity.
Qed.

(** When the index answered a query of the run with [results], the search
    returns [search_outcome results]. *)
Lemma vector_search_outcome_of_answer self user query top_k tr r index vector k b results :
  exec (ECommerceSystem.vector_search self user query top_k) tr r ->
  Call (Query index vector k b) (Return results) ∈ tr ->
  r = search_outcome results.
Proof.
  intros Hrun Hin.
  apply elem_of_collaborator_calls in Hin; [| reflexivity].
  apply vector_search_cases in Hrun
    as [[-> _] | [(e & Hc & _) | [(v & e & Hc & _) | (v & res & Hc & ->)]]].
  - apply elem_of_nil in Hin. contradiction.
  - rewrite Hc in Hin. apply list_elem_of_singleton in Hin.
    apply (f_equal query_answer) in Hin. discriminate.
  - rewrite Hc in Hin. apply elem_of_cons in Hin as [Hin | Hin];
      [| apply list_elem_of_singleton in Hin];
      apply (f_equal query_answer) in Hin; discriminate.
  - rewrite Hc in Hin. apply elem_of_cons in Hin as [Hin | Hin];
      [| apply list_elem_of_singleton in Hin];
      apply (f_equal query_answer) in Hin; [discriminate |].
    injection Hin as ->. reflexivity.
Qed.

(** X13. When the index answers the query of a vector_search run, the
    search returns the empty list for no matches; otherwise one entry per
    match, in order, carrying the match's name, price and description
    metadata, its score and its id; and if some match lacks one of these
    three metadata keys the result is instead the one-element list with
    the error message that quotes the missing key. *)
Theorem vector_search_formats_matches
        (self : ECommerceSystem) (user : User) (query : string) (top_k : Z)
        (tr : list call) (r : result (list (string + SearchResult)))
        (index : string) (vector : list float) (k : Z) (b : bool)
        (results : QueryResponse) :
  exec (ECommerceSystem.vector_search self user query top_k) tr r ->
  Call (Query index vector k b) (Return results) ∈ tr ->
  r = search_outcome results /\
  (matches results = [] -> r = Return []) /\
  (forall entries,
      Forall2 entry_of (matches results) entries -> r = Return (inr <$> entries)) /\
  ((exists entries,
       Forall2 entry_of (matches results) entries /\ r = Return (inr <$> entries)) \/
   (exists m key,
       m ∈ matches results /\ key ∈ ["name"; "price"; "description"] /\
       Match.metadata m !! key = None /\
       r = Return [inl ("Error performing vector search: '" ++ key ++ "'")])).
Proof.
  intros Hrun Hin.
  assert (Hr : r = search_outcome results)
    by exact (vector_search_outcome_of_answer _ _ _ _ _ _ _ _ _ _ _ Hrun Hin).
  subst r. unfold search_outcome. split; [reflexivity |].
  assert (Hall : forall entries,
             Forall2 entry_of (matches results) entries ->
             result_map ECommerceSystem.format_match (matches results)
             = Return entries).
  { intros entries H. induction H as [|m entry ms es Hm _ IH]; [reflexivity |].
    simpl. apply format_match_Return in Hm. rewrite Hm, IH. reflexivity. }
  split; [| split].
  - intros ->. reflexivity.
  - intros entries H. rewrite (Hall entries H).
    destruct H; reflexivity.
  - destruct (matches results) as [|m ms] eqn:Em.
    { left. exists []. split; [constructor | reflexivity]. }
    destruct (result_map ECommerceSystem.format_match (m :: ms)) as [entries|e] eqn:E.
    + left. exists entries. split; [| reflexivity].
      apply result_map_Return in E. eapply Forall2_impl; [exact E |].
      intros m' e'. apply format_match_Return.
    + right. apply result_map_Raise in E as (m' & Hm' & Hf).
      apply format_match_Raise in Hf as (key & Hkey & Hnone & ->).
      exists m', key. auto.
Qed.

#[warnings="-inexact-float"] Lemma vector_search_formats_matches_witness :
  Return [inr (SearchResult.mk (PStr "Gaming Monitor") (PFloat 399.99%float)
                 (PStr "New gaming monitor with 4K resolution") 0.75%float "v-1")]
  = search_outcome {| matches := [Demo.monitor_match] |}.
Proof.
  refine (proj1 (vector_search_formats_matches
                   (Demo.system 0) Demo.alice "4K display" 2 _ _
                   "products" [0.25%float; 0.5%float] 2 true
                   {| matches := [Demo.monitor_match] |} demo_search_one_match _)).
  do 5 (apply elem_of_cons; right). apply elem_of_cons. left. reflexivity.
Defined.

Lemma create_vector_cases
        (self : VectorManagement) (user : User) (data : string)
        (metadata : gmap string pyval) (tr : list call) (r : result string) :
  exec (VectorManagement.create_vector self user data metadata) tr r <->
  (~ holds (VectorManagement.rbac self) (User.role user) "vector_create" /\
   tr = [] /\ r = VectorManagement.create_denied) \/
  (holds (VectorManagement.rbac self) (User.role user) "vector_create" /\
   exists vector_id,
     (exists e,
         tr = [Call Uuid4 vector_id; Call (Encode data) (Raise e)] /\
         r = create_error e) \/
     (exists embedding e,
         tr = [Call Uuid4 vector_id; Call (Encode data) (Return embedding);
               Call (Upsert (VectorManagement.vector_index self)
                            [(vector_id, embedding, metadata)]) (Raise e)] /\
         r = create_error e) \/
     (exists embedding,
         tr = [Call Uuid4 vector_id; Call (Encode data) (Return embedding);
               Call (Upsert (VectorManagement.vector_index self)
                            [(vector_id, embedding, metadata)]) (Return tt)] /\
         r = Return ("Vector created successfully with ID: " ++ vector_id))).
Proof.
  unfold VectorManagement.create_vector. rewrite has_permission_holdsb.
  rewrite <- holdsb_false, <- holdsb_holds.
  destruct (holdsb _ _ _); simpl.
  - split.
    + intros H. right. split; [reflexivity |].
      exec_step H. destruct H as (vector_id & tr1 & -> & H).
      exists vector_id.
      exec_step H. destruct H as ([embedding | e] & tr2 & -> & H).
      2: { exec_step H. destruct H as [-> ->]. left. exists e. split; reflexivity. }
      right.
      exec_step H. destruct H as ([[] | e] & tr3 & -> & H);
        exec_step H; destruct H as [-> ->].
      * right. exists embedding. split; reflexivity.
      * left. exists embedding, e. split; reflexivity.
    + intros [(H & _) | (_ & vector_id & H)]; [discriminate |].
      destruct H as [(e & -> & ->) | [(embedding & e & -> & ->) | (embedding & -> & ->)]];
        exec_run.
  - split.
    + intros H. exec_step H. left. destruct H as [-> ->]. auto.
    + intros [(_ & -> & ->) | (H & _)]; [| discriminate].
      apply exec_ret. reflexivity.
Qed.

(** X14. create_vector never raises and never queries the index, and a
    result other than the denial means vector_create is held. Its
    completed runs are exactly: the denial with no call; or uuid4 and then
    a failing encode (error message, no upsert); or uuid4, encode and one
    upsert of (id, embedding, metadata) to its index, returning the error
    message if the upsert fails and the success message with the id if it
    succeeds. *)
Theorem create_vector_runs
        (self : VectorManagement) (user : User) (data : string)
        (metadata : gmap string pyval) (tr : list call) (r : result string) :
  (exec (VectorManagement.create_vector self user data metadata) tr r ->
   (exists message, r = Return message) /\
   (forall c, c ∈ tr -> query_answer c = None) /\
   (r <> VectorManagement.create_denied ->
    holds (VectorManagement.rbac self) (User.role user) "vector_create")) /\
  (exec (VectorManagement.create_vector self user data metadata) tr r <->
   (~ holds (VectorManagement.rbac self) (User.role user) "vector_create" /\
    tr = [] /\ r = VectorManagement.create_denied) \/
   (holds (VectorManagement.rbac self) (User.role user) "vector_create" /\
    exists vector_id,
      (exists e,
          tr = [Call Uuid4 vector_id; Call (Encode data) (Raise e)] /\
          r = create_error e) \/
      (exists embedding e,
          tr = [Call Uuid4 vector_id; Call (Encode data) (Return embedding);
                Call (Upsert (VectorManagement.vector_index self)
                             [(vector_id, embedding, metadata)]) (Raise e)] /\
          r = create_error e) \/
      (exists embedding,
          tr = [Call Uuid4 vector_id; Call (Encode data) (Return embedding);
                Call (Upsert (VectorManagement.vector_index self)
                             [(vector_id, embedding, metadata)]) (Return tt)] /\
          r = Return ("Vector created successfully with ID: " ++ vector_id)))).
Proof.
  split; [| apply create_vector_cases].
  intros H. apply create_vector_cases in H.
  destruct H as [(Hno & -> & ->) | (Hyes & vid & [(e & -> & ->) | [(em & e & -> & ->) | (em & -> & ->)]])].
  - split; [eexists; reflexivity |]. split; [| intros H; contradiction].
    intros c Hc. apply elem_of_nil in Hc. contradiction.
  - split; [eexists; reflexivity |]. split; [| intros _; exact Hyes].
    intros c Hc. repeat (apply elem_of_cons in Hc as [-> | Hc]; [reflexivity |]).
    apply elem_of_nil in Hc. contradiction.
  - split; [eexists; reflexivity |]. split; [| intros _; exact Hyes].
    intros c Hc. repeat (apply elem_of_cons in Hc as [-> | Hc]; [reflexivity |]).
    apply elem_of_nil in Hc. contradiction.
  - split; [eexists; reflexivity |]. split; [| intros _; exact Hyes].
    intros c Hc. repeat (apply elem_of_cons in Hc as [-> | Hc]; [reflexivity |]).
    apply elem_of_nil in Hc. contradiction.
Qed.

Lemma create_vector_runs_witness :
  exec (VectorManagement.create_vector Demo.vector_mgmt Demo.carol
          "New gaming monitor with 4K resolution" Demo.monitor_metadata)
       [Call Uuid4 "v-3";
        Call (Encode "New gaming monitor with 4K resolution")
             (Raise (Exception "model not loaded"))]
       (create_error (Exception "model not loaded")).
Proof.
  apply (proj2 (proj2 (create_vector_runs Demo.vector_mgmt Demo.carol
                         "New gaming monitor with 4K resolution" Demo.monitor_metadata
                         _ _))).
  right. split; [apply holdsb_holds; vm_compute; reflexivity |].
  exists "v-3". left. exists (Exception "model not loaded"). split; reflexivity.
Defined.

(** ** test_user_actions *)

Ltac exec_beta H :=
  match type of H with
  | exec (ITree.subst ?f (Ret ?x)) _ _ =>
      apply (exec_observe_eq _ (f x)) in H; [cbv beta in H | reflexivity]
  end.

Ltac exec_split H :=
  match type of H with
  | exec (ITree.bind ?t ?k) _ _ =>
      apply (fun H' => exec_bind_inv k _ _ _ H' t eq_refl) in H
  end.

Lemma test_user_actions_cases
        (system : ECommerceSystem) (vector_mgmt : VectorManagement) (user : User)
        (tr : list call) (r : result unit) :
  exec (test_user_actions system vector_mgmt user) tr r ->
  (exists e,
      ECommerceSystem.view_orders system user None = Raise e /\
      r = Raise e /\ collaborator_calls tr = []) \/
  (exists tr_search found,
      exec (ECommerceSystem.vector_search system user "high performance laptop" 3)
           tr_search (Return found) /\
      ((found = [] /\ r = Raise IndexError /\
        collaborator_calls tr = collaborator_calls tr_search) \/
       (found <> [] /\ r = Return tt /\
        exists tr_create message,
          exec (VectorManagement.create_vector vector_mgmt user
                  "Test product description" test_product_metadata)
               tr_create (Return message) /\
          collaborator_calls tr
          = (collaborator_calls tr_search ++ collaborator_calls tr_create)%list))).
Proof.
  intros H. unfold test_user_actions in H.
  exec_step H. destruct H as (x1 & tr1 & -> & H).
  exec_step H. destruct H as (x2 & tr2 & -> & H).
  exec_step H. destruct H as (x3 & tr3 & -> & H).
  rewrite view_products_cases in H.
  assert (Hp : exists products,
             (if holdsb (ECommerceSystem.rbac system) (User.role user) "view_products"
              then Return (product_entry <$> dict_values (ECommerceSystem.products system))
              else Return [inl "Access Denied: No permission to view products"])
             = Return products)
    by (destruct (holdsb _ _ _); eauto).
  destruct Hp as [products Hp]. rewrite Hp in H. clear Hp.
  exec_step H. destruct H as (x4 & tr4 & -> & H).
  exec_step H. destruct H as (x5 & tr5 & -> & H).
  destruct (ECommerceSystem.view_orders system user None) as [orders | e] eqn:Eo.
  2: { exec_step H. destruct H as [-> ->]. left. exists e. auto. }
  right.
  exec_step H. destruct H as (x6 & tr6 & -> & H).
  exec_step H. destruct H as (x7 & tr7 & -> & H).
  exec_step H. destruct H as (x8 & tr8 & -> & H).
  exec_beta H. exec_split H.
  destruct H as (tr_search & found & tr9 & Hsearch & H & ->).
  assert (Hret : exists l, found = Return l).
  { apply vector_search_cases in Hsearch
      as [[_ ->] | [(e & _ & ->) | [(v & e & _ & ->) | (v & res & _ & ->)]]];
      try (eexists; reflexivity).
    unfold search_outcome. destruct (matches res); [eauto |].
    destruct (result_map _ _); eexists; reflexivity. }
  destruct Hret as [l ->]. exists tr_search, l. split; [exact Hsearch |].
  simpl. rewrite collaborator_calls_app.
  destruct l as [|entry l]; simpl in H.
  { exec_step H. destruct H as [-> ->]. left. rewrite app_nil_r. auto. }
  right. split; [discriminate |].
  assert (Hrest : r = Return tt /\
            exists tr_create message,
              exec (VectorManagement.create_vector vector_mgmt user
                      "Test product description" test_product_metadata)
                   tr_create (Return message) /\
              collaborator_calls tr9 = collaborator_calls tr_create).
  { assert (Hok : exists ok, first_is_not_str (entry :: l) = Return ok)
      by (destruct entry; eexists; reflexivity).
    destruct Hok as [ok Hok]. simpl in Hok. rewrite Hok in H. clear Hok.
    exec_step H. destruct H as (x9 & tr10 & -> & H).
    exec_step H. destruct H as (x10 & tr11 & -> & H).
    exec_beta H. exec_split H.
    destruct H as (tr_create & created & tr12 & Hcreate & H & ->).
    assert (Hmsg : exists message, created = Return message).
    { apply create_vector_cases in Hcreate
        as [(_ & _ & ->) | (_ & vid & [(e & _ & ->) | [(em & e & _ & ->) | (em & _ & ->)]])];
        eexists; reflexivity. }
    destruct Hmsg as [message ->].
    exec_step H. destruct H as (x11 & tr13 & -> & H).
    exec_step H. destruct H as [-> ->].
    split; [reflexivity |]. exists tr_create, message. split; [exact Hcreate |].
    simpl. rewrite collaborator_calls_app. simpl. rewrite app_nil_r. reflexivity. }
  destruct Hrest as (-> & tr_create & message & Hcreate & Hc).
  split; [reflexivity |]. exists tr_create, message. split; [exact Hcreate |].
  rewrite Hc. reflexivity.
Qed.

(** X15. A completed run of test_user_actions ends in one of three ways:
    with the KeyError of the order listing (a product id of a shown order
    missing from the product store), raised before any encoder or index
    call; with an IndexError when the search returned an empty list, the
    vector creation then never being attempted; or normally, after the
    vector creation has run. *)
Theorem test_user_actions_runs
        (system : ECommerceSystem) (vector_mgmt : VectorManagement) (user : User)
        (tr : list call) (r : result unit) :
  exec (test_user_actions system vector_mgmt user) tr r ->
  (r = Return tt \/ r = Raise IndexError \/
   exists o pid,
     o ∈ visible_orders system user /\ pid ∈ Order.products o /\
     dict_get (ECommerceSystem.products system) pid = None /\
     r = Raise (KeyError (KInt pid))) /\
  ((exists e,
       ECommerceSystem.view_orders system user None = Raise e /\
       r = Raise e /\ collaborator_calls tr = []) \/
   (exists tr_search found,
       exec (ECommerceSystem.vector_search system user "high performance laptop" 3)
            tr_search (Return found) /\
       ((found = [] /\ r = Raise IndexError /\
         collaborator_calls tr = collaborator_calls tr_search) \/
        (found <> [] /\ r = Return tt /\
         exists tr_create message,
           exec (VectorManagement.create_vector vector_mgmt user
                   "Test product description" test_product_metadata)
                tr_create (Return message) /\
           collaborator_calls tr
           = (collaborator_calls tr_search ++ collaborator_calls tr_create)%list)))).
Proof.
  intros H. pose proof (test_user_actions_cases _ _ _ _ _ H) as Hcases.
  split; [| exact Hcases].
  destruct Hcases as [(e & Ho & -> & _) | (tr_s & found & _ & [(_ & -> & _) | (_ & -> & _)])];
    [| auto | auto].
  right. right. rewrite view_orders_listing in Ho.
  destruct (negb _); [discriminate |].
  destruct (result_map _ (visible_orders system user)) as [vs|e'] eqn:E; simpl in Ho;
    [discriminate |].
  injection Ho as <-. apply result_map_Raise in E as (o & Hin & Hov).
  apply order_view_Raise in Hov as (pid & Hpid & Hnone & ->).
  exists o, pid. auto.
Qed.

(** A run of the test for alice in which the index has no match for the
    query: the unguarded [search_results[0]] raises. *)
Example demo_test_empty_index :
  exec (test_user_actions (Demo.system 0) Demo.vector_mgmt Demo.alice)
       [ Call (Print [Lit nl; Lit "Testing "; Lit "alice"; Lit " ("; Lit "customer";
                      Lit "):"]) tt;
         Call (Print [Lit "1. Basic Operations:"]) tt;
         Call (Print [Lit "  a. Viewing products:"]) tt;
         Call (Print [Lit "    Success"]) tt;
         Call (Print [Lit "  b. Viewing orders:"]) tt;
         Call (Print [Lit "    Success"]) tt;
         Call (Print [Lit "2. Vector Operations:"]) tt;
         Call (Print [Lit "  a. Basic vector search:"]) tt;
         Call (Print (ECommerceSystem.search_banner "high performance laptop")) tt;
         Call (Print [Lit "User: "; Lit "alice"; Lit " ("; Lit "customer"; Lit ")"]) tt;
         Call (Encode "high performance laptop") (Return [0.5%float]);
         Call (Print [Lit "Searching for: "; Lit "high performance laptop"]) tt;
         Call (Print [Lit "Query embedding dimension: "; FInt 1]) tt;
         Call (Query "products" [0.5%float] 3 true) (Return {| matches := [] |});
         Call (Print [Lit nl; Lit "Search response: ";
                      FResponse {| matches := [] |}]) tt;
         Call (Print [Lit "No matches found!"]) tt ]
       (Raise IndexError).
Proof.
  unfold test_user_actions.
  replace (ECommerceSystem.view_products (Demo.system 0) Demo.alice)
    with (Return (product_entry <$> Demo.products)
          : result (list (string + ProductView)))
    by (vm_compute; reflexivity).
  replace (ECommerceSystem.view_orders (Demo.system 0) Demo.alice None)
    with (Return [inr (OrderView.mk 1 (Order.total (Demo.order1 0)) "pending"
                         ["Gaming Laptop"; "Wireless Headphones"]);
                  inr (OrderView.mk 2 (Order.total (Demo.order2 0)) "completed"
                         ["Smartphone Pro"])]
          : result (list (string + OrderView)))
    by (vm_compute; reflexivity).
  rewrite vector_search_gate.
  replace (holdsb _ _ "vector_search_basic") with true by (vm_compute; reflexivity).
  simpl. exec_run.
Qed.

Lemma test_user_actions_runs_witness :
  exists tr_search found,
    exec (ECommerceSystem.vector_search (Demo.system 0) Demo.alice
            "high performance laptop" 3) tr_search (Return found) /\
    found = [].
Proof.
  destruct (proj2 (test_user_actions_runs _ _ _ _ _ demo_test_empty_index))
    as [(e & Ho & _) | (tr_search & found & Hs & [(Hf & _) | (_ & Hr & _)])].
  - exfalso. vm_compute in Ho. discriminate Ho.
  - exists tr_search, found. split; assumption.
  - exfalso. discriminate Hr.
Defined.

(** ** Product objects shared by the facades *)

Lemma dict_set_fmap {K V W : Type} `{EqDecision K} (f : V -> W)
      (d : list (K * V)) k v :
  (fun kv => (kv.1, f kv.2)) <$> dict_set d k v
  = dict_set ((fun kv => (kv.1, f kv.2)) <$> d) k (f v).
Proof.
  induction d as [|[k' v'] d IH]; [reflexivity |].
  cbn [dict_set fmap list_fmap fst snd].
  destruct (decide (k' = k)); cbn [fmap list_fmap fst snd]; [reflexivity |].
  f_equal. exact IH.
Qed.

Lemma dict_get_fmap {K V W : Type} `{EqDecision K} (f : V -> W)
      (d : list (K * V)) k :
  dict_get ((fun kv => (kv.1, f kv.2)) <$> d) k = f <$> dict_get d k.
Proof.
  induction d as [|[k' v'] d IH]; [reflexivity |].
  cbn [dict_get fmap list_fmap fst snd]. destruct (decide (k' = k)); [reflexivity | exact IH].
Qed.

Lemma dict_get_elem_of {K V : Type} `{EqDecision K} (d : list (K * V)) k v :
  dict_get d k = Some v -> (k, v) ∈ d.
Proof.
  induction d as [|[k' v'] d IH]; simpl; [discriminate |].
  destruct (decide (k' = k)) as [->|Hne].
  - intros [= ->]. apply elem_of_cons. left. reflexivity.
  - intros H. apply elem_of_cons. right. apply IH. exact H.
Qed.

(** The dict of references, read through the heap, is the dict the
    by-value constructors build from the objects' states. *)
Lemma deref_index_by_id h refs :
  Shared.deref h (Shared.index_by_id h refs) = dict_of_list Product.id (h <$> refs).
Proof.
  unfold Shared.deref, Shared.index_by_id.
  induction refs as [|r refs IH] using rev_ind; [reflexivity |].
  rewrite fmap_app. simpl. rewrite !dict_of_list_snoc, dict_set_fmap, IH. reflexivity.
Qed.

(** Writing the stock of the object under a key changes that entry only. *)
Lemma deref_write_stock h (d : list (Z * nat)) product_id r n :
  Forall (fun kr => Product.id (h kr.2) = kr.1) d ->
  NoDup d.*1 ->
  dict_get d product_id = Some r ->
  Shared.deref (Shared.write_stock h r n) d
  = dict_set (Shared.deref h d) product_id (set_stock n (h r)).
Proof.
  intros Hkeyed Hnd Hget.
  assert (Hr : Product.id (h r) = product_id).
  { apply dict_get_elem_of in Hget.
    rewrite Forall_forall in Hkeyed. exact (Hkeyed _ Hget). }
  unfold Shared.deref.
  induction d as [|[k r'] d IH]; [discriminate |].
  apply Forall_cons in Hkeyed as [Hk Hkeyed]. simpl in Hk.
  rewrite fmap_cons in Hnd. apply NoDup_cons in Hnd as [Hfresh Hnd].
  cbn [dict_get] in Hget. cbn [fmap list_fmap dict_set fst snd].
  destruct (decide (k = product_id)) as [->|Hne].
  - injection Hget as ->. unfold Shared.write_stock at 1.
    rewrite decide_True by reflexivity. f_equal.
    apply list_fmap_ext. intros i [k' r''] Hin. simpl.
    unfold Shared.write_stock. destruct (decide (r'' = r)) as [->|]; [| reflexivity].
    exfalso. apply Hfresh. apply list_elem_of_lookup_2 in Hin.
    rewrite Forall_forall in Hkeyed. specialize (Hkeyed _ Hin). simpl in Hkeyed.
    subst k'. apply list_elem_of_fmap. exists (Product.id (h r), r). auto.
  - unfold Shared.write_stock at 1. rewrite decide_False by congruence.
    f_equal. apply IH; assumption.
Qed.

Lemma deref_get h (d : list (Z * nat)) k :
  dict_get (Shared.deref h d) k = h <$> dict_get d k.
Proof. apply dict_get_fmap. Qed.

Lemma shared_update_stock_cases rbac d h user product_id new_stock :
  Shared.update_stock rbac d h user product_id new_stock =
  if negb (holdsb rbac (User.role user) "update_product_stock")
  then (stock_denied, h)
  else
    match dict_get d product_id with
    | None => (product_not_found, h)
    | Some r =>
        (Return ("Stock updated successfully for " ++ Product.name (h r)),
         Shared.write_stock h r new_stock)
    end.
Proof.
  unfold Shared.update_stock. rewrite has_permission_holdsb.
  destruct (holdsb _ _ _); simpl; [| reflexivity].
  unfold dict_mem, getitem_int. destruct (dict_get d product_id) as [r|]; simpl;
    [| reflexivity].
  unfold Shared.write_stock at 1. rewrite decide_True by reflexivity. reflexivity.
Qed.

Lemma shared_view_products_deref rbac d h viewer us os idx :
  Shared.view_products rbac d h viewer
  = ECommerceSystem.view_products (ECommerceSystem.mk rbac us (Shared.deref h d) os idx)
                                  viewer.
Proof.
  unfold Shared.view_products, ECommerceSystem.view_products. simpl.
  destruct (has_permission rbac viewer "view_products") as [b|e]; simpl; [| reflexivity].
  destruct b; simpl; [| reflexivity]. f_equal.
  unfold dict_values, Shared.deref. rewrite <- !list_fmap_compose. reflexivity.
Qed.

(** X16. When InventoryManagement and ECommerceSystem hold the same
    Product objects (both dicts built from the same list of references), a
    stock update made through the inventory is seen by view_products of
    the system: with objects modelled by references into a heap, the
    result and the resulting store agree with the by-value update_stock,
    and after a permitted update of a product in the list the catalogue of
    a permitted viewer contains that product with the new stock. *)
Theorem shared_stock_update_is_seen
        (rbac : RBACSystem) (h : Shared.heap) (refs : list nat) (user : User)
        (product_id new_stock : Z) :
  let d := Shared.index_by_id h refs in
  let out := Shared.update_stock rbac d h user product_id new_stock in
  let inv_out :=
    InventoryManagement.update_stock (InventoryManagement.init rbac (h <$> refs))
                                     user product_id new_stock in
  out.1 = inv_out.1 /\
  Shared.deref out.2 d = InventoryManagement.products inv_out.2 /\
  (forall viewer us os idx,
      Shared.view_products rbac d out.2 viewer
      = ECommerceSystem.view_products
          (ECommerceSystem.mk rbac us (InventoryManagement.products inv_out.2) os idx)
          viewer) /\
  (forall viewer p,
      holds rbac (User.role user) "update_product_stock" ->
      holds rbac (User.role viewer) "view_products" ->
      last_with_key Product.id product_id (h <$> refs) = Some p ->
      exists entries,
        Shared.view_products rbac d out.2 viewer = Return entries /\
        inr (ProductView.mk product_id (Product.name p) (Product.price p) new_stock)
        ∈ entries).
Proof.
  cbv zeta.
  assert (Hagree :
    (Shared.update_stock rbac (Shared.index_by_id h refs) h user product_id new_stock).1
    = (InventoryManagement.update_stock (InventoryManagement.init rbac (h <$> refs))
                                        user product_id new_stock).1 /\
    Shared.deref
      (Shared.update_stock rbac (Shared.index_by_id h refs) h user product_id
                           new_stock).2
      (Shared.index_by_id h refs)
    = InventoryManagement.products
        (InventoryManagement.update_stock (InventoryManagement.init rbac (h <$> refs))
                                          user product_id new_stock).2).
  { rewrite shared_update_stock_cases, update_stock_cases.
    unfold InventoryManagement.init. simpl.
    rewrite <- deref_index_by_id.
    destruct (holdsb _ _ _); simpl; [| split; reflexivity].
    rewrite deref_get.
    destruct (dict_get (Shared.index_by_id h refs) product_id) as [r|] eqn:E; simpl;
      [| split; reflexivity].
    split; [reflexivity |].
    apply deref_write_stock; [| | exact E].
    - apply (dict_of_list_keyed (fun r => Product.id (h r))).
    - apply dict_of_list_keys_NoDup. }
  destruct Hagree as [Hres Hstore].
  split; [exact Hres |]. split; [exact Hstore |]. split.
  - intros viewer us os idx. rewrite <- Hstore. apply shared_view_products_deref.
  - intros viewer p Hupd Hview Hp.
    rewrite (shared_view_products_deref _ _ _ _ [] [] products_index), Hstore.
    rewrite view_products_cases. simpl.
    apply holdsb_holds in Hview. rewrite Hview.
    eexists. split; [reflexivity |].
    rewrite update_stock_cases. unfold InventoryManagement.init. simpl.
    apply holdsb_holds in Hupd. rewrite Hupd. simpl.
    rewrite dict_of_list_get, Hp. simpl.
    assert (Hid : Product.id p = product_id).
    { unfold last_with_key in Hp. apply last_Some_elem_of in Hp.
      apply list_elem_of_filter in Hp as [Hid _]. exact Hid. }
    apply list_elem_of_fmap. exists (set_stock new_stock p). split.
    + unfold product_entry. simpl. rewrite Hid. reflexivity.
    + unfold dict_values. apply list_elem_of_fmap.
      exists (product_id, set_stock new_stock p). split; [reflexivity |].
      apply dict_get_elem_of. apply dict_get_set_eq.
Qed.

Lemma shared_stock_update_is_seen_witness :
  exists entries,
    Shared.view_products Demo.rbac_updated
      (Shared.index_by_id Shared.demo_heap [0; 1; 2]%nat)
      (Shared.update_stock Demo.rbac_updated
         (Shared.index_by_id Shared.demo_heap [0; 1; 2]%nat)
         Shared.demo_heap Demo.bob_promoted 1 45).2
      Demo.bob_promoted
    = Return entries /\
    inr (ProductView.mk 1 "Gaming Laptop" (Product.price Demo.laptop) 45) ∈ entries.
Proof.
  apply (proj2 (proj2 (proj2
           (shared_stock_update_is_seen Demo.rbac_updated Shared.demo_heap
              [0; 1; 2]%nat Demo.bob_promoted 1 45)))
           Demo.bob_promoted Demo.laptop).
  - apply holdsb_holds. vm_compute. reflexivity.
  - apply holdsb_holds. vm_compute. reflexivity.
  - reflexivity.
Defined.



(** ** setup_pinecone_index *)

Lemma runs_inv {R : Type} (t : itree setupE R) tr r :
  runs t tr r ->
  match observe t with
  | RetF r' => tr = [] /\ r = r'
  | TauF u => runs u tr r
  | VisF e k => exists x tr', tr = SCall e x :: tr' /\ runs (k x) tr' r
  end.
Proof.
  intros H. destruct H as [t r H | t u tr r H Hu | t X e k x tr r H Hk]; rewrite H.
  - split; reflexivity.
  - exact Hu.
  - exists x, tr. split; [reflexivity | exact Hk].
Qed.

Lemma runs_bind_inv {A B : Type} (k : A -> itree setupE B) u tr r :
  runs u tr r ->
  forall t, observe u = observe (ITree.bind t k) ->
  exists tr1 a tr2, runs t tr1 a /\ runs (k a) tr2 r /\ tr = (tr1 ++ tr2)%list.
Proof.
  induction 1 as [u r Hu | u u' tr r Hu Hex IH | u X e h x tr r Hu Hex IH];
    intros t Ht; rewrite observe_bind in Ht; rewrite Hu in Ht;
    destruct (observe t) as [a | t0 | Y e0 h0] eqn:Et; cbn in Ht; try discriminate.
  - exists [], a, []. split; [apply runs_ret; exact Et |].
    split; [apply runs_ret; symmetry; exact Ht | reflexivity].
  - exists [], a, tr. split; [apply runs_ret; exact Et |].
    split; [eapply runs_tau; [symmetry; exact Ht | exact Hex] | reflexivity].
  - injection Ht as ->.
    destruct (IH t0 eq_refl) as (tr1 & a & tr2 & H1 & H2 & ->).
    exists tr1, a, tr2. split; [eapply runs_tau; eassumption |].
    split; [exact H2 | reflexivity].
  - exists [], a, (SCall e x :: tr). split; [apply runs_ret; exact Et |].
    split; [eapply runs_vis; [symmetry; exact Ht | exact Hex] | reflexivity].
  - apply eq_inv_VisF_weak in Ht. destruct Ht as [<- [<- ->]].
    destruct (IH (h0 x) eq_refl) as (tr1 & a & tr2 & H1 & H2 & ->).
    exists (SCall e x :: tr1), a, tr2. split; [eapply runs_vis; eassumption |].
    split; [exact H2 | reflexivity].
Qed.

Ltac runs_step H := apply runs_inv in H; cbn in H.

(** The polling loop: rounds that find the index not ready, each followed
    by a one-second sleep, until it is ready or the client raises. *)
Lemma wait_until_ready_runs index_name tr r :
  runs (wait_until_ready index_name) tr r ->
  exists n,
    (tr = (not_ready_rounds n index_name
           ++ [SCall (DescribeIndexReady index_name) (Return true)])%list /\
     r = Return tt) \/
    (exists e,
        tr = (not_ready_rounds n index_name
              ++ [SCall (DescribeIndexReady index_name) (Raise e)])%list /\
        r = Raise e).
Proof.
  remember (length tr) as len eqn:Hlen.
  revert tr Hlen. induction len as [len IH] using lt_wf_ind. intros tr Hlen H.
  unfold wait_until_ready in H.
  runs_step H. destruct H as (x & tr1 & -> & H).
  destruct x as [[|] | e].
  - runs_step H. destruct H as [-> ->]. exists 0%nat. left. split; reflexivity.
  - runs_step H. destruct H as (x2 & tr2 & -> & H). destruct x2.
    runs_step H.
    destruct (IH (length tr2) ltac:(subst len; simpl; lia) tr2 eq_refl H)
      as [n [(-> & ->) | (e & -> & ->)]]; exists (S n).
    + left. split; reflexivity.
    + right. exists e. split; reflexivity.
  - runs_step H. destruct H as [-> ->]. exists 0%nat. right. exists e.
    split; reflexivity.
Qed.

Lemma pinecone_calls_app tr1 tr2 :
  pinecone_calls (tr1 ++ tr2) = (pinecone_calls tr1 ++ pinecone_calls tr2)%list.
Proof.
  induction tr1 as [|c tr1 IH]; simpl; [reflexivity |].
  destruct (is_pinecone_call c); simpl; rewrite IH; reflexivity.
Qed.

Lemma sleeps_app tr1 tr2 : sleeps (tr1 ++ tr2) = (sleeps tr1 ++ sleeps tr2)%list.
Proof.
  induction tr1 as [|[X e x] tr1 IH]; simpl; [reflexivity |].
  destruct e; simpl; rewrite IH; reflexivity.
Qed.

Lemma pinecone_calls_rounds n index_name :
  pinecone_calls (not_ready_rounds n index_name)
  = replicate n (SCall (DescribeIndexReady index_name) (Return false)).
Proof. induction n as [|n IH]; simpl; [reflexivity | rewrite IH; reflexivity]. Qed.

Lemma sleeps_rounds n index_name : sleeps (not_ready_rounds n index_name) = replicate n 1.
Proof. induction n as [|n IH]; simpl; [reflexivity | rewrite IH; reflexivity]. Qed.

Ltac runs_split H :=
  match type of H with
  | runs (ITree.bind ?t ?k) _ _ =>
      apply (fun H' => runs_bind_inv k _ _ _ H' t eq_refl) in H
  end.

Lemma runs_observe_eq {R : Type} (t u : itree setupE R) tr r :
  observe t = observe u -> runs t tr r -> runs u tr r.
Proof.
  intros E H. destruct H as [t r H | t t' tr r H Ht | t X e k x tr r H Hk].
  - apply runs_ret. congruence.
  - eapply runs_tau; [| exact Ht]. congruence.
  - eapply runs_vis; [| exact Hk]. congruence.
Qed.

Ltac runs_beta H :=
  match type of H with
  | runs (ITree.subst ?f (Ret ?x)) _ _ =>
      apply (runs_observe_eq _ (f x)) in H; [cbv beta in H | reflexivity]
  end.

(** The [if]/[else] of the [try] block, run by run. *)
Lemma ensure_index_runs index_name dimension existing tr x :
  runs (ensure_index index_name dimension existing) tr x ->
  ((index_name ∈ existing) /\ pinecone_calls tr = [] /\ sleeps tr = [] /\ x = Return tt) \/
  ((index_name ∉ existing) /\
   ((exists e,
        pinecone_calls tr
        = [SCall (CreateIndex index_name dimension "cosine" "aws" "us-east-1") (Raise e)] /\
        sleeps tr = [] /\ x = Raise e) \/
    (exists n e,
        pinecone_calls tr
        = (SCall (CreateIndex index_name dimension "cosine" "aws" "us-east-1") (Return tt)
           :: replicate n (SCall (DescribeIndexReady index_name) (Return false))
           ++ [SCall (DescribeIndexReady index_name) (Raise e)])%list /\
        sleeps tr = replicate n 1 /\ x = Raise e) \/
    (exists n,
        pinecone_calls tr
        = (SCall (CreateIndex index_name dimension "cosine" "aws" "us-east-1") (Return tt)
           :: replicate n (SCall (DescribeIndexReady index_name) (Return false))
           ++ [SCall (DescribeIndexReady index_name) (Return true)])%list /\
        sleeps tr = replicate n 1 /\ x = Return tt))).
Proof.
  unfold ensure_index. case_bool_decide as Hin; simpl; intros H.
  - left. runs_step H. destruct H as (x1 & tr1 & -> & H).
    runs_step H. destruct H as [-> ->]. auto.
  - right. split; [exact Hin |].
    runs_step H. destruct H as (x1 & tr1 & -> & H).
    runs_step H. destruct H as ([[] | e] & tr2 & -> & H).
    2: { runs_step H. destruct H as [-> ->]. left. exists e. auto. }
    right.
    runs_step H. destruct H as (x3 & tr3 & -> & H).
    runs_step H. destruct H as (x4 & tr4 & -> & H).
    runs_beta H.
    apply wait_until_ready_runs in H as [n [(-> & ->) | (e & -> & ->)]]; simpl;
      rewrite pinecone_calls_app, sleeps_app, pinecone_calls_rounds, sleeps_rounds;
      simpl; rewrite app_nil_r.
    + right. exists n. auto.
    + left. exists n, e. auto.
Qed.

Lemma setup_pinecone_index_cases
        (index_name : string) (dimension : Z) (tr : list setup_call) (r : option string) :
  runs (setup_pinecone_index index_name dimension) tr r ->
  let create ans :=
    SCall (CreateIndex index_name dimension "cosine" "aws" "us-east-1") ans in
  let not_ready := SCall (DescribeIndexReady index_name) (Return false) in
  (exists e,
      pinecone_calls tr = [SCall ListIndexNames (Raise e)] /\
      sleeps tr = [] /\ r = None) \/
  (exists existing g,
      (index_name ∈ existing) /\
      pinecone_calls tr
      = [SCall ListIndexNames (Return existing); SCall (GetIndex index_name) g] /\
      sleeps tr = [] /\ r = handle_of g) \/
  (exists existing e,
      (index_name ∉ existing) /\
      pinecone_calls tr = [SCall ListIndexNames (Return existing); create (Raise e)] /\
      sleeps tr = [] /\ r = None) \/
  (exists existing n e,
      (index_name ∉ existing) /\
      pinecone_calls tr
      = (SCall ListIndexNames (Return existing) :: create (Return tt)
         :: replicate n not_ready
         ++ [SCall (DescribeIndexReady index_name) (Raise e)])%list /\
      sleeps tr = replicate n 1 /\ r = None) \/
  (exists existing n g,
      (index_name ∉ existing) /\
      pinecone_calls tr
      = (SCall ListIndexNames (Return existing) :: create (Return tt)
         :: replicate n not_ready
         ++ [SCall (DescribeIndexReady index_name) (Return true);
             SCall (GetIndex index_name) g])%list /\
      sleeps tr = replicate n 1 /\ r = handle_of g).
Proof.
  intros H. cbv zeta. unfold setup_pinecone_index in H. runs_split H.
  destruct H as (tr_try & x & tr_exc & Htry & Hexc & ->).
  rewrite pinecone_calls_app, sleeps_app.
  assert (Hexcept : pinecone_calls tr_exc = [] /\ sleeps tr_exc = [] /\
                    r = handle_of x).
  { unfold setup_except in Hexc. destruct x as [index | e].
    - runs_step Hexc. destruct Hexc as [-> ->]. auto.
    - runs_step Hexc. destruct Hexc as (x1 & tr1 & -> & Hexc).
      runs_beta Hexc. destruct (contains _ _).
      + runs_step Hexc. destruct Hexc as (x2 & tr2 & -> & Hexc).
        runs_step Hexc. destruct Hexc as [-> ->]. auto.
      + runs_step Hexc. destruct Hexc as [-> ->]. auto. }
  destruct Hexcept as (-> & -> & ->). rewrite !app_nil_r.
  unfold setup_try in Htry.
  runs_step Htry. destruct Htry as ([existing | e] & tr1 & -> & Htry).
  2: { runs_step Htry. destruct Htry as [-> ->]. left. exists e. auto. }
  right. runs_beta Htry. runs_split Htry.
  destruct Htry as (tr_e & xe & tr_g & He & Hg & ->).
  simpl. rewrite pinecone_calls_app, sleeps_app.
  assert (Hget : (exists e, xe = Raise e /\ tr_g = [] /\ x = Raise e) \/
                 (exists g, xe = Return tt /\
                            pinecone_calls tr_g = [SCall (GetIndex index_name) g] /\
                            sleeps tr_g = [] /\ handle_of x = handle_of g)).
  { destruct xe as [[] | e].
    - right. runs_step Hg. destruct Hg as ([index | e] & tr2 & -> & Hg).
      + runs_step Hg. destruct Hg as (x3 & tr3 & -> & Hg).
        runs_step Hg. destruct Hg as [-> ->]. exists (Return index). auto.
      + runs_step Hg. destruct Hg as [-> ->]. exists (Raise e). auto.
    - left. runs_step Hg. destruct Hg as [-> ->]. exists e. auto. }
  apply ensure_index_runs in He
    as [(Hin & Hc & Hs & ->) | (Hin & [(e & Hc & Hs & ->) | [(n & e & Hc & Hs & ->) | (n & Hc & Hs & ->)]])];
    rewrite Hc, Hs;
    destruct Hget as [(e' & Hxe & -> & ->) | (g & Hxe & Hcg & Hsg & ->)];
    try discriminate Hxe; simpl; rewrite ?app_nil_r, ?Hcg, ?Hsg, ?app_nil_r.
  - left. exists existing, g. auto.
  - right. left. exists existing, e. auto.
  - right. right. left. exists existing, n, e. auto.
  - right. right. right. exists existing, n, g. split; [exact Hin |].
    split; [| auto]. rewrite <- app_assoc. reflexivity.
Qed.

Lemma elem_of_pinecone_calls c tr :
  c ∈ tr -> is_pinecone_call c = true -> c ∈ pinecone_calls tr.
Proof.
  intros Hin Hc. induction tr as [|c' tr IH]; [exact Hin |].
  simpl. apply elem_of_cons in Hin as [<- | Hin].
  - rewrite Hc. apply elem_of_cons. left. reflexivity.
  - destruct (is_pinecone_call c'); [apply elem_of_cons; right |]; auto.
Qed.

(** X18. A completed run of setup_pinecone_index: if the index name is
    among the listed indexes, nothing is created or polled and nothing
    sleeps, only the listing and pc.Index are called; if it is not listed,
    create_index is called with the name, the dimension, cosine, aws and
    us-east-1, then the index is polled, with a one-second sleep after
    each not-ready answer, until it is ready or a call raises. The result
    is the handle pc.Index returned, or None when a call raised. *)
Theorem setup_pinecone_index_runs
        (index_name : string) (dimension : Z) (tr : list setup_call) (r : option string) :
  runs (setup_pinecone_index index_name dimension) tr r ->
  let create ans :=
    SCall (CreateIndex index_name dimension "cosine" "aws" "us-east-1") ans in
  let not_ready := SCall (DescribeIndexReady index_name) (Return false) in
  (forall existing,
      SCall ListIndexNames (Return existing) ∈ tr ->
      (index_name ∈ existing) ->
      sleeps tr = [] /\
      exists g,
        pinecone_calls tr
        = [SCall ListIndexNames (Return existing); SCall (GetIndex index_name) g] /\
        r = handle_of g) /\
  ((exists e,
       pinecone_calls tr = [SCall ListIndexNames (Raise e)] /\
       sleeps tr = [] /\ r = None) \/
   (exists existing g,
       (index_name ∈ existing) /\
       pinecone_calls tr
       = [SCall ListIndexNames (Return existing); SCall (GetIndex index_name) g] /\
       sleeps tr = [] /\ r = handle_of g) \/
   (exists existing e,
       (index_name ∉ existing) /\
       pinecone_calls tr = [SCall ListIndexNames (Return existing); create (Raise e)] /\
       sleeps tr = [] /\ r = None) \/
   (exists existing n e,
       (index_name ∉ existing) /\
       pinecone_calls tr
       = (SCall ListIndexNames (Return existing) :: create (Return tt)
          :: replicate n not_ready
          ++ [SCall (DescribeIndexReady index_name) (Raise e)])%list /\
       sleeps tr = replicate n 1 /\ r = None) \/
   (exists existing n g,
       (index_name ∉ existing) /\
       pinecone_calls tr
       = (SCall ListIndexNames (Return existing) :: create (Return tt)
          :: replicate n not_ready
          ++ [SCall (DescribeIndexReady index_name) (Return true);
              SCall (GetIndex index_name) g])%list /\
       sleeps tr = replicate n 1 /\ r = handle_of g)).
Proof.
  intros H. pose proof (setup_pinecone_index_cases _ _ _ _ H) as Hcases.
  cbv zeta in *. split; [| exact Hcases].
  intros existing Hlisted Hin.
  apply elem_of_pinecone_calls in Hlisted; [| reflexivity].
  assert (Hhead : forall ex rest,
             SCall ListIndexNames (Return existing)
             ∈ SCall ListIndexNames (Return ex) :: rest ->
             (forall c, c ∈ rest -> listed_names c = None) ->
             existing = ex).
  { intros ex rest Hc Hrest. apply elem_of_cons in Hc as [Hc | Hc].
    - apply (f_equal listed_names) in Hc. injection Hc as ->. reflexivity.
    - apply Hrest in Hc. discriminate Hc. }
  assert (Hlist : forall (l : list setup_call),
             Forall (fun c => listed_names c = None) l ->
             forall c, c ∈ l -> listed_names c = None).
  { intros l Hl c Hc. rewrite Forall_forall in Hl. auto. }
  destruct Hcases as [(e & Hc & _) | [(ex & g & _ & Hc & Hs & ->) | [(ex & e & Hnin & Hc & _)
       | [(ex & n & e & Hnin & Hc & _) | (ex & n & g & Hnin & Hc & _)]]]];
    rewrite Hc in Hlisted.
  - apply list_elem_of_singleton in Hlisted.
    apply (f_equal listed_names) in Hlisted. discriminate Hlisted.
  - apply Hhead in Hlisted; [| apply Hlist; repeat constructor]. subst ex.
    split; [exact Hs |]. exists g. auto.
  - apply Hhead in Hlisted; [| apply Hlist; repeat constructor]. subst ex.
    contradiction.
  - apply Hhead in Hlisted; [subst ex; contradiction |].
    apply Hlist. constructor; [reflexivity |]. apply Forall_app. split.
    + apply Forall_replicate. reflexivity.
    + repeat constructor.
  - apply Hhead in Hlisted; [subst ex; contradiction |].
    apply Hlist. constructor; [reflexivity |]. apply Forall_app. split.
    + apply Forall_replicate. reflexivity.
    + repeat constructor.
Qed.

Lemma runs_intro {R : Type} (t : itree setupE R) tr r :
  match observe t with
  | RetF r' => tr = [] /\ r = r'
  | TauF u => runs u tr r
  | VisF e k => exists x tr', tr = SCall e x :: tr' /\ runs (k x) tr' r
  end ->
  runs t tr r.
Proof.
  destruct (observe t) as [r' | u | X e k] eqn:E.
  - intros [-> ->]. apply runs_ret. exact E.
  - intros H. eapply runs_tau; eassumption.
  - intros (x & tr' & -> & H). eapply runs_vis; eassumption.
Qed.

Ltac runs_run :=
  repeat (apply runs_intro; cbn;
          first [ split; reflexivity
                | eexists _, _; split; [reflexivity |]
                | match goal with |- runs _ _ _ => idtac end ]).

(** The index is missing, is created, and is ready at the second poll. *)
Example demo_setup_creates_index :
  runs (setup_pinecone_index "products" 384)
       [ SCall ListIndexNames (Return ["reviews"]);
         SCall (SPrint [Lit "Creating new Pinecone index: "; Lit "products"]) tt;
         SCall (CreateIndex "products" 384 "cosine" "aws" "us-east-1") (Return tt);
         SCall (SPrint [Lit "Index created successfully!"]) tt;
         SCall (SPrint [Lit "Waiting for index to be ready..."]) tt;
         SCall (DescribeIndexReady "products") (Return false);
         SCall (Sleep 1) tt;
         SCall (DescribeIndexReady "products") (Return true);
         SCall (GetIndex "products") (Return "products");
         SCall (SPrint [Lit "Successfully connected to index!"]) tt ]
       (Some "products").
Proof.
  runs_run.
Qed.

Lemma setup_pinecone_index_runs_witness :
  exists (existing : list string) n g,
    ("products" ∉ existing) /\
    sleeps [ SCall ListIndexNames (Return ["reviews"]);
             SCall (SPrint [Lit "Creating new Pinecone index: "; Lit "products"]) tt;
             SCall (CreateIndex "products" 384 "cosine" "aws" "us-east-1") (Return tt);
             SCall (SPrint [Lit "Index created successfully!"]) tt;
             SCall (SPrint [Lit "Waiting for index to be ready..."]) tt;
             SCall (DescribeIndexReady "products") (Return false);
             SCall (Sleep 1) tt;
             SCall (DescribeIndexReady "products") (Return true);
             SCall (GetIndex "products") (Return "products");
             SCall (SPrint [Lit "Successfully connected to index!"]) tt ]
    = replicate n 1 /\
    Some "products" = handle_of g.
Proof.
  destruct (proj2 (setup_pinecone_index_runs _ _ _ _ demo_setup_creates_index))
    as [(e & Hc & _) | [(ex & g & _ & Hc & _) | [(ex & e & _ & Hc & _)
       | [(ex & n & e & _ & _ & _ & Hr) | (ex & n & g & Hin & _ & Hs & Hr)]]]].
  - exfalso. apply (f_equal length) in Hc. discriminate Hc.
  - exfalso. apply (f_equal length) in Hc. discriminate Hc.
  - exfalso. apply (f_equal length) in Hc. discriminate Hc.
  - exfalso. discriminate Hr.
  - exists ex, n, g. split; [exact Hin |]. split; [exact Hs | exact Hr].
Defined.

Lemma existsb_call_failed_pinecone tr :
  existsb call_failed tr = existsb call_failed (pinecone_calls tr).
Proof.
  induction tr as [|[X e x] tr IH]; [reflexivity |].
  destruct e; simpl; rewrite IH; reflexivity.
Qed.

Lemma existsb_replicate_false {A : Type} (f : A -> bool) n x :
  f x = false -> existsb f (replicate n x) = false.
Proof. intros H. induction n as [|n IH]; simpl; [reflexivity | rewrite H, IH; reflexivity]. Qed.

(** X19. setup_pinecone_index never raises: a completed run returns None
    exactly when some Pinecone client call of the run raised, and a
    returned handle is the one pc.Index(index_name) returned. *)
Theorem setup_pinecone_index_none_iff_call_failed
        (index_name : string) (dimension : Z) (tr : list setup_call) (r : option string) :
  runs (setup_pinecone_index index_name dimension) tr r ->
  (r = None <-> exists c, c ∈ tr /\ call_failed c = true) /\
  (forall index, r = Some index ->
                 SCall (GetIndex index_name) (Return index) ∈ tr).
Proof.
  intros H.
  assert (Hex : (exists c, c ∈ tr /\ call_failed c = true)
                <-> existsb call_failed (pinecone_calls tr) = true).
  { rewrite <- existsb_call_failed_pinecone, existsb_exists.
    split; intros (c & Hc & Hf); exists c; split; try exact Hf;
      apply list_elem_of_In; exact Hc. }
  assert (Hget : forall c, c ∈ pinecone_calls tr -> c ∈ tr).
  { clear. intros c. induction tr as [|c' tr IH]; simpl; [auto |].
    destruct (is_pinecone_call c'); rewrite ?elem_of_cons; intuition. }
  rewrite Hex. clear Hex.
  apply setup_pinecone_index_cases in H. cbv zeta in H.
  destruct H as [(e & Hc & _ & ->) | [(ex & g & _ & Hc & _ & ->) | [(ex & e & _ & Hc & _ & ->)
       | [(ex & n & e & _ & Hc & _ & ->) | (ex & n & g & _ & Hc & _ & ->)]]]].
  - rewrite Hc. simpl. split; [split; reflexivity | discriminate].
  - rewrite Hc. simpl. destruct g as [index | e]; simpl.
    + split; [split; discriminate |]. intros ? [= <-]. apply Hget. rewrite Hc.
      apply elem_of_cons. right. apply elem_of_cons. left. reflexivity.
    + split; [split; reflexivity | discriminate].
  - rewrite Hc. simpl. split; [split; reflexivity | discriminate].
  - rewrite Hc. simpl. rewrite existsb_app, existsb_replicate_false by reflexivity.
    simpl. split; [split; reflexivity | discriminate].
  - rewrite Hc. simpl. rewrite existsb_app, existsb_replicate_false by reflexivity.
    destruct g as [index | e]; simpl.
    + split; [split; discriminate |]. intros ? [= <-]. apply Hget. rewrite Hc.
      do 2 (apply elem_of_cons; right). apply elem_of_app. right.
      apply elem_of_cons. right. apply elem_of_cons. left. reflexivity.
    + split; [split; reflexivity | discriminate].
Qed.

Lemma setup_pinecone_index_none_iff_call_failed_witness :
  SCall (GetIndex "products") (Return "products")
  ∈ [ SCall ListIndexNames (Return ["reviews"]);
      SCall (SPrint [Lit "Creating new Pinecone index: "; Lit "products"]) tt;
      SCall (CreateIndex "products" 384 "cosine" "aws" "us-east-1") (Return tt);
      SCall (SPrint [Lit "Index created successfully!"]) tt;
      SCall (SPrint [Lit "Waiting for index to be ready..."]) tt;
      SCall (DescribeIndexReady "products") (Return false);
      SCall (Sleep 1) tt;
      SCall (DescribeIndexReady "products") (Return true);
      SCall (GetIndex "products") (Return "products");
      SCall (SPrint [Lit "Successfully connected to index!"]) tt ].
Proof.
  apply (proj2 (setup_pinecone_index_none_iff_call_failed
                  _ _ _ _ demo_setup_creates_index) "products" eq_refl).
Defined.
